(** * openwisp-radius: organization-token authentication and tenant scoping

    A shallow embedding of [openwisp_radius/api/views.py]: the
    organization-token authenticator ([TokenAuthentication]), the
    token-scoped views ([AuthorizeView], [AccountingView]) and the
    slug-scoped views ([DispatchOrgMixin], [RegisterView],
    [ObtainAuthTokenView]), followed by the properties of the tenant
    isolation layer.

    Python values are modelled as follows: [str] as [string], a value that
    may be [None] as [option], dictionaries ([request.data], [request.GET],
    [request.META], the Django cache) as [gmap string _], database tables as
    lists of rows, and code that raises or touches the cache as a small
    state-and-exception monad. *)

From Stdlib Require Import Ascii String.
From stdpp Require Import base option list strings gmap fin_maps.

Local Open Scope string_scope.

(** ** Python built-ins used by the views *)

Module Py.

(** [s.split(sep)] for a one-character separator: every occurrence of the
    separator ends a part, empty parts are kept, and the result always has
    at least one part. *)
Fixpoint split (sep : ascii) (s : string) : list string :=
  match s with
  | EmptyString => [EmptyString]
  | String c rest =>
      if Ascii.eqb c sep then EmptyString :: split sep rest
      else match split sep rest with
           | [] => [String c EmptyString]
           | part :: parts => String c part :: parts
           end
  end.

(** [sep.join(parts)], the inverse of [split] on parts free of [sep]. *)
Fixpoint join (sep : ascii) (parts : list string) : string :=
  match parts with
  | [] => EmptyString
  | [p] => p
  | p :: ps => p ++ String sep (join sep ps)
  end.

(** Truth value of a [str]: only the empty string is false. *)
Definition truthy_str (s : string) : bool :=
  match s with
  | EmptyString => false
  | String _ _ => true
  end.

(** Truth value of a value that is [None] or a [str]. *)
Definition truthy (v : option string) : bool :=
  match v with
  | None => false
  | Some s => truthy_str s
  end.

(** [key in d] for a dictionary. *)
Definition contains {V} (d : gmap string V) (key : string) : bool :=
  bool_decide (is_Some (d !! key)).

(** The double-quote character (code 34) and a string put between two of
    them. *)
Definition dquote : string := String (ascii_of_nat 34) EmptyString.
Definition quoted (s : string) : string := dquote ++ s ++ dquote.

End Py.

(** ** Exceptions and the effect monad *)

(** The exceptions the views raise or let through.  [ValidationError]
    carries its detail dictionary as a list of (field, messages). *)
Inductive Exn : Type :=
| AuthenticationFailed (detail : string)
| ParseError (detail : string)
| ValidationError (detail : list (string * list string))
| Http404
| DoesNotExist
| MultipleObjectsReturned.

#[global] Instance Exn_eq_dec : EqDecision Exn.
Proof. solve_decision. Defined.

(** A computation over a mutable world [W] that returns a value or raises;
    the world changes made before a [raise] are kept, as in Python. *)
Definition Eff (W A : Type) : Type := W → (Exn + A) * W.

Definition ret {W A} (a : A) : Eff W A := λ w, (inr a, w).
Definition raise {W A} (e : Exn) : Eff W A := λ w, (inl e, w).
Definition bind {W A B} (m : Eff W A) (k : A → Eff W B) : Eff W B :=
  λ w, match m w with
       | (inr a, w') => k a w'
       | (inl e, w') => (inl e, w')
       end.

(** [try: m except: handler]; the handler re-raises what it does not
    catch. *)
Definition try_except {W A} (m : Eff W A) (handler : Exn → Eff W A) : Eff W A :=
  λ w, match m w with
       | (inr a, w') => (inr a, w')
       | (inl e, w') => handler e w'
       end.

Declare Scope eff_scope.
Delimit Scope eff_scope with eff.
Notation "x <- m ;; k" := (bind m (λ x, k))
  (at level 100, m at next level, right associativity) : eff_scope.
Notation "m ;;; k" := (bind m (λ _, k))
  (at level 100, right associativity) : eff_scope.
Local Open Scope eff_scope.

(** [Model.objects.get] with keyword filters on a table: exactly one
    matching row, or
    [DoesNotExist] / [MultipleObjectsReturned]. *)
Definition objects_get {Row} (matches : Row → bool) (table : list Row) : Exn + Row :=
  match List.filter matches table with
  | [] => inl DoesNotExist
  | [row] => inr row
  | _ :: _ :: _ => inl MultipleObjectsReturned
  end.

(** ** Requests *)

(** The parts of a request the views read.  [auth] is what the
    authenticator returned for this request ([request.auth]). *)
Record Request : Type := {
  data : gmap string string;
  GET : gmap string string;
  META : gmap string string;
  auth : option string
}.

(** ** The organization-token authenticator *)

(** A row of [OrganizationRadiusSettings] (declared in [..models], outside
    the source at hand): its primary key, the organization it belongs to and
    the organization's shared secret. *)
Record OrganizationRadiusSettings : Type := {
  pk : string;
  organization : string;
  token : string
}.

(** What the authenticator does to the outside world, in order. *)
Inductive Event : Type :=
| CacheGet (key : string)
| CacheSet (key value : string)
| StoreGet (organization token : string).

#[global] Instance Event_eq_dec : EqDecision Event.
Proof. solve_decision. Defined.

(** The world of the authenticator: the Django cache, the settings table and
    the log of the accesses made so far (most recent last). *)
Record World : Type := {
  cache : gmap string string;
  settings_table : list OrganizationRadiusSettings;
  trace : list Event
}.

Definition AnonymousUser : Type := unit.

Module TokenAuthentication.

Definition _TOKEN_AUTH_FAILED : string := "Token authentication failed".

(** [cache.get(key)] *)
Definition cache_get (key : string) : Eff World (option string) :=
  λ w, (inr (cache w !! key),
        {| cache := cache w; settings_table := settings_table w;
           trace := trace w ++ [CacheGet key] |}).

(** [cache.set(key, value)] *)
Definition cache_set (key value : string) : Eff World unit :=
  λ w, (inr tt,
        {| cache := <[key := value]> (cache w); settings_table := settings_table w;
           trace := trace w ++ [CacheSet key value] |}).

(** [OrganizationRadiusSettings.objects.get(organization=uuid, token=token)] *)
Definition settings_get (uuid tok : string) : Eff World OrganizationRadiusSettings :=
  λ w, (objects_get
          (λ r, bool_decide (organization r = uuid) && bool_decide (token r = tok))
          (settings_table w),
        {| cache := cache w; settings_table := settings_table w;
           trace := trace w ++ [StoreGet uuid tok] |}).

Definition check_organization (request : Request) : Eff World unit :=
  if Py.contains (data request) "organization"
  then raise (AuthenticationFailed
                "setting the organization parameter explicitly is not allowed")
  else ret tt.

Definition get_uuid_token (request : Request)
  : Eff World (option string * option string) :=
  (* default to GET params *)
  let uuid := GET request !! "uuid" in
  let tok := GET request !! "token" in
  (* inspect authorization header *)
  match META request !! "HTTP_AUTHORIZATION" with
  | Some header =>
      let parts := Py.split " " header in
      match parts !! 1%nat, parts !! 2%nat with
      | Some uuid', Some tok' => ret (Some uuid', Some tok')
      | _, _ => raise (ParseError "Invalid token")
      end
  | None => ret (uuid, tok)
  end.

(** The body of [authenticate] once [uuid] and [token] are known to be
    non-empty strings. *)
Definition check_token (uuid tok : string) : Eff World unit :=
  sentinel <- cache_get "uuid" ;;
  if negb (Py.truthy sentinel) then
    try_except
      (instance <- settings_get uuid tok ;;
       cache_set (pk instance) (token instance))
      (λ e, match e with
            | DoesNotExist => raise (AuthenticationFailed _TOKEN_AUTH_FAILED)
            | _ => raise e
            end)
  else
    cached <- cache_get uuid ;;
    if bool_decide (cached ≠ Some tok)
    then raise (AuthenticationFailed _TOKEN_AUTH_FAILED)
    else ret tt.

Definition authenticate (request : Request) : Eff World (AnonymousUser * string) :=
  check_organization request ;;;
  credentials <- get_uuid_token request ;;
  match credentials with
  | (Some uuid, Some tok) =>
      if negb (Py.truthy_str uuid) || negb (Py.truthy_str tok)
      then raise (AuthenticationFailed _TOKEN_AUTH_FAILED)
      else
        check_token uuid tok ;;;
        (* if execution gets here the auth token is good *)
        ret (tt, uuid)
  | _ => raise (AuthenticationFailed _TOKEN_AUTH_FAILED)
  end.

End TokenAuthentication.

(** ** Users, organizations and memberships *)

(** The rows of the tables of [openwisp_users], [rest_framework.authtoken]
    and [django_freeradius] that the views read or write.  Only the columns
    the views use are kept. *)
Record User : Type := {
  user_pk : nat;
  username : string
}.

Record Organization : Type := {
  org_pk : string;
  slug : string
}.

(** A membership row: user [ou_user] belongs to organization
    [ou_organization_id]. *)
Record OrganizationUser : Type := {
  ou_user : nat;
  ou_organization_id : string
}.

(** A per-user auth token of [rest_framework.authtoken]. *)
Record Token : Type := {
  token_user : nat;
  key : string
}.

(** An accounting session row; [acct_organization] is the organization
    the session belongs to. *)
Record RadiusAccounting : Type := {
  unique_id : string;
  acct_username : string;
  acct_organization : string
}.

#[global] Instance User_eq_dec : EqDecision User.
Proof. solve_decision. Defined.
#[global] Instance Organization_eq_dec : EqDecision Organization.
Proof. solve_decision. Defined.
#[global] Instance OrganizationUser_eq_dec : EqDecision OrganizationUser.
Proof. solve_decision. Defined.
#[global] Instance Token_eq_dec : EqDecision Token.
Proof. solve_decision. Defined.
#[global] Instance RadiusAccounting_eq_dec : EqDecision RadiusAccounting.
Proof. solve_decision. Defined.

(** The database the views work on, and the warnings written to the module
    logger (most recent last). *)
Record Database : Type := {
  organizations : list Organization;
  organization_users : list OrganizationUser;
  auth_tokens : list Token;
  warnings : list string
}.

(** [OrganizationUser.objects.filter(user=user, organization_id=org_id)],
    where [org_id] may be [None] (no row has a null organization). *)
Definition membership_filter (user : User) (org_id : option string)
    (rows : list OrganizationUser) : list OrganizationUser :=
  List.filter
    (λ row, bool_decide (ou_user row = user_pk user)
            && bool_decide (Some (ou_organization_id row) = org_id))
    rows.

(** [queryset.exists()] *)
Definition exists_ {Row} (queryset : list Row) : bool :=
  match queryset with
  | [] => false
  | _ :: _ => true
  end.

(** User [user] has a membership row for organization [org_id]. *)
Definition is_member (db : Database) (user : User) (org_id : string) : Prop :=
  {| ou_user := user_pk user; ou_organization_id := org_id |}
    ∈ organization_users db.

(** ** Views authenticated by the organization token *)

Module AuthorizeView.
Section get_user.

(** [BaseAuthorizeView.get_user] of [django_freeradius]: the user the
    request names, or [None]. *)
Variable super_get_user : Request → option User.

Definition get_user (db : Database) (request : Request) : option User :=
  let user := super_get_user request in
  (* ensure user is member of the authenticated org *)
  match user with
  | Some u =>
      if negb (exists_ (membership_filter u (auth request)
                          (organization_users db)))
      then None
      else user
  | None => user
  end.

End get_user.
End AuthorizeView.

Module AccountingView.
Section get_queryset.

(** [BaseAccountingView.get_queryset] of [django_freeradius]. *)
Variable super_get_queryset : list RadiusAccounting.

Definition get_queryset (request : Request) : list RadiusAccounting :=
  List.filter
    (λ row, bool_decide (Some (acct_organization row) = auth request))
    super_get_queryset.

End get_queryset.
End AccountingView.

(** ** Views addressed by organization slug *)

Module DispatchOrgMixin.

(** [Organization.objects.get(slug=slug)] *)
Definition organization_get (slug' : string) : Eff Database Organization :=
  λ db, (objects_get (λ org, bool_decide (slug org = slug')) (organizations db), db).

(** [dispatch]: resolve [self.organization] from the slug of the URL, then
    hand over to the handler of the view, which reads [self.organization]. *)
Definition dispatch {A} (slug' : string)
    (super_dispatch : Organization → Eff Database A) : Eff Database A :=
  self_organization <-
    try_except (organization_get slug')
      (λ e, match e with
            | DoesNotExist => raise Http404
            | _ => raise e
            end) ;;
  super_dispatch self_organization.

End DispatchOrgMixin.

(** Modelled from the spec: [Organization.add_user] belongs to
    [openwisp_users] and is not among the sources; following the data model
    of the specification (a membership is the existence of the (user,
    organization) pair) it creates the membership row of [user] in
    [org]. *)
Definition add_user (org : Organization) (user : User) : Eff Database unit :=
  λ db, (inr tt,
         {| organizations := organizations db;
            organization_users :=
              organization_users db
                ++ [{| ou_user := user_pk user; ou_organization_id := org_pk org |}];
            auth_tokens := auth_tokens db;
            warnings := warnings db |}).

(** Modelled from the spec: [User.organizations_pk] belongs to
    [openwisp_users] and is not among the sources; it lists the primary keys
    of the organizations [user] has a membership row for (each as a
    one-element tuple, written here as the element). *)
Definition organizations_pk (user : User) : Eff Database (list string) :=
  λ db, (inr (List.map ou_organization_id
                (List.filter (λ row, bool_decide (ou_user row = user_pk user))
                   (organization_users db))),
         db).

(** [logger.warning(message)] *)
Definition logger_warning (message : string) : Eff Database unit :=
  λ db, (inr tt,
         {| organizations := organizations db;
            organization_users := organization_users db;
            auth_tokens := auth_tokens db;
            warnings := warnings db ++ [message] |}).

Module RegisterView.
Section perform_create.

(** The serializer of the registration request, and
    [BaseRegisterView.perform_create] of [rest_auth], which saves the new
    user and returns it (or raises). *)
Variable Serializer : Type.
Variable super_perform_create : Serializer → Eff Database User.

Definition perform_create (self_organization : Organization)
    (serializer : Serializer) : Eff Database User :=
  user <- super_perform_create serializer ;;
  add_user self_organization user ;;;
  ret user.

(** The view as routed: [dispatch] resolves the organization, then the
    [create] handler of [rest_auth] hands the validated serializer to
    [perform_create]. *)
Definition register (slug' : string) (serializer : Serializer)
  : Eff Database User :=
  DispatchOrgMixin.dispatch slug' (λ org, perform_create org serializer).

End perform_create.
End RegisterView.

(** The failure [AuthTokenSerializer] of [rest_framework] reports when the
    credentials do not log a user in. *)
Definition invalid_credentials : Exn :=
  ValidationError
    [("non_field_errors", ["Unable to log in with provided credentials."])].

Module ObtainAuthTokenView.
Section post.

(** [AuthTokenSerializer(data=...).is_valid(raise_exception=True)] of
    [rest_framework] followed by [validated_data['user']]: the
    authenticated user, or the exception [is_valid] raises. *)
Variable auth_token_serializer : gmap string string → Exn + User.
(** The key [Token.objects.create] gives a new token. *)
Variable generate_key : Database → string.

Definition validated_user (request : Request) : Eff Database User :=
  λ db, (auth_token_serializer (data request), db).

(** [Token.objects.get_or_create(user=user)] *)
Definition token_get_or_create (user : User) : Eff Database (Token * bool) :=
  try_except
    (λ db, (match objects_get (λ t, bool_decide (token_user t = user_pk user))
                    (auth_tokens db) with
            | inr t => inr (t, false)
            | inl e => inl e
            end, db))
    (λ e, match e with
          | DoesNotExist =>
              λ db, let t := {| token_user := user_pk user; key := generate_key db |} in
                    (inr (t, true),
                     {| organizations := organizations db;
                        organization_users := organization_users db;
                        auth_tokens := auth_tokens db ++ [t];
                        warnings := warnings db |})
          | _ => raise e
          end).

(** The message of the membership error. *)
Definition not_member_message (name slug' : string) : string :=
  "User " ++ Py.quoted name ++ " is not member of " ++ Py.quoted slug'.

(** [post]; the response carries the serialized token. *)
Definition post (self_organization : Organization) (slug' : string)
    (request : Request) : Eff Database Token :=
  user <- validated_user request ;;
  pks <- organizations_pk user ;;
  if negb (bool_decide (org_pk self_organization ∈ pks)) then
    let message := not_member_message (username user) slug' in
    logger_warning message ;;;
    raise (ValidationError [("non_field_errors", [message])])
  else
    created <- token_get_or_create user ;;
    ret (fst created).

(** The view as routed: [dispatch] resolves the organization, then
    [post] runs. *)
Definition obtain_auth_token (slug' : string) (request : Request)
  : Eff Database Token :=
  DispatchOrgMixin.dispatch slug' (λ org, post org slug' request).

End post.
End ObtainAuthTokenView.

(** ** Sample data

    Two organizations [U1] and [U2] with their settings rows, a few requests
    and users; the properties below are tried on them. *)

Module Sample.

Definition settings_U1 : OrganizationRadiusSettings :=
  {| pk := "S1"; organization := "U1"; token := "secret1" |}.
Definition settings_U2 : OrganizationRadiusSettings :=
  {| pk := "S2"; organization := "U2"; token := "secret2" |}.

(** A request with the credentials in the query string. *)
Definition params_request (uuid tok : string) : Request :=
  {| data := ∅;
     GET := <["uuid" := uuid]> (<["token" := tok]> ∅);
     META := ∅;
     auth := None |}.

(** A request with the credentials in the [Authorization] header, other
    credentials in the query string and a body [body]. *)
Definition header_request (header : string) (body : gmap string string) : Request :=
  {| data := body;
     GET := <["uuid" := "U2"]> (<["token" := "secret2"]> ∅);
     META := <["HTTP_AUTHORIZATION" := header]> ∅;
     auth := None |}.

(** A request already authenticated for organization [org_id]. *)
Definition authenticated_request (org_id : string) (body : gmap string string)
  : Request :=
  {| data := body; GET := ∅; META := ∅; auth := Some org_id |}.

(** A world with both settings rows and the given cache. *)
Definition world (c : gmap string string) : World :=
  {| cache := c; settings_table := [settings_U1; settings_U2]; trace := [] |}.

Definition org_A : Organization := {| org_pk := "U1"; slug := "org-a" |}.
Definition org_B : Organization := {| org_pk := "U2"; slug := "org-b" |}.
Definition alice : User := {| user_pk := 1; username := "alice" |}.
Definition bob : User := {| user_pk := 2; username := "bob" |}.

(** [alice] is a member of [org_A] only; [bob] is not registered yet. *)
Definition database : Database :=
  {| organizations := [org_A; org_B];
     organization_users := [{| ou_user := 1; ou_organization_id := "U1" |}];
     auth_tokens := [];
     warnings := [] |}.

(** A user lookup by the [username] field of the body that knows [alice]. *)
Definition lookup_user (request : Request) : option User :=
  match data request !! "username" with
  | Some name => if bool_decide (name = "alice") then Some alice else None
  | None => None
  end.

(** A credential check that accepts [alice] with password [pw]. *)
Definition check_credentials (body : gmap string string) : Exn + User :=
  match body !! "username", body !! "password" with
  | Some name, Some password =>
      if bool_decide (name = "alice") && bool_decide (password = "pw")
      then inr alice
      else inl invalid_credentials
  | _, _ => inl invalid_credentials
  end.

(** A registration that creates [bob] without touching the database
    otherwise. *)
Definition create_bob (serializer : unit) : Eff Database User := ret bob.

Definition accounting_rows : list RadiusAccounting :=
  [ {| unique_id := "s1"; acct_username := "alice"; acct_organization := "U1" |};
    {| unique_id := "s2"; acct_username := "carol"; acct_organization := "U2" |};
    {| unique_id := "s3"; acct_username := "alice"; acct_organization := "U1" |} ].

End Sample.

(** ** The rest of the views and the URL table *)

(** What [rest_framework] does with the pair [authenticate] returns: the
    second component becomes [request.auth]. *)
Definition perform_authentication (request : Request) : Eff World Request :=
  user_auth_tuple <- TokenAuthentication.authenticate request ;;
  ret {| data := data request; GET := GET request; META := META request;
         auth := Some (snd user_auth_tuple) |}.

Module TokenAuthorizationMixin.
Section get_serializer.

(** The positional arguments and the keyword arguments other than [data],
    which are handed on untouched, the serializer, and
    [super().get_serializer]. *)
Variable Args : Type.
Variable Serializer : Type.
Variable super_get_serializer :
  Args → option (gmap string (option string)) → Serializer.

(** [kwargs_data] is [kwargs['data']] when the caller passes [data].  The
    copy made of it takes [request.auth], which may be [None], under the key
    [organization]. *)
Definition get_serializer (request : Request) (args : Args)
    (kwargs_data : option (gmap string string)) : Serializer :=
  match kwargs_data with
  | Some kwargs_data =>
      let data_copy := Some <$> kwargs_data in
      let data_copy := <["organization" := auth request]> data_copy in
      super_get_serializer args (Some data_copy)
  | None => super_get_serializer args None
  end.

End get_serializer.
End TokenAuthorizationMixin.

(** A value of the keyword arguments of [_create_batch]. *)
Inductive KwValue : Type :=
| KwOrganization (org : Organization)
| KwStr (s : string).

#[global] Instance KwValue_eq_dec : EqDecision KwValue.
Proof. solve_decision. Defined.

Module BatchView.
Section _create_batch.

(** The serializer, the batch created, and [BaseBatchView._create_batch] of
    [django_freeradius], which receives the options as keyword
    arguments. *)
Variable Serializer : Type.
Variable Batch : Type.
Variable super_create_batch :
  Serializer → gmap string KwValue → Eff Database Batch.

(** [Organization.objects.get(pk=pk')], where [pk'] may be [None]. *)
Definition organization_by_pk (pk' : option string) : Eff Database Organization :=
  λ db, (objects_get (λ org, bool_decide (Some (org_pk org) = pk'))
           (organizations db), db).

(** [options.update(kwargs)]: the entries of [kwargs] replace those of
    [options]. *)
Definition dict_update (options kwargs : gmap string KwValue)
  : gmap string KwValue :=
  kwargs ∪ options.

Definition _create_batch (request : Request) (serializer : Serializer)
    (kwargs : gmap string KwValue) : Eff Database Batch :=
  org <- organization_by_pk (auth request) ;;
  let options := {["organization" := KwOrganization org]} in
  let options := dict_update options kwargs in
  super_create_batch serializer options.

End _create_batch.
End BatchView.

(** [urls.py] *)
Module Urls.

(** What [path(route, view, name=name)] builds. *)
Record URLPattern (View : Type) : Type := {
  route : string;
  view : View;
  name : string
}.
Arguments route {View} _.
Arguments view {View} _.
Arguments name {View} _.

(** Reading an attribute a module may lack. *)
Inductive AttributeError : Type :=
| NoAttribute (attr : string).

Definition getattr {View} (module : gmap string View) (attr : string)
  : AttributeError + View :=
  match module !! attr with
  | Some v => inr v
  | None => inl (NoAttribute attr)
  end.

(** The routes in the order of the source: pattern, attribute of
    [api_views], name. *)
Definition url_table : list (string * string * string) :=
  [ ("freeradius/authorize/", "authorize", "authorize");
    ("freeradius/postauth/", "postauth", "postauth");
    ("freeradius/accounting/", "accounting", "accounting");
    ("<slug:slug>/account/", "register", "rest_register");
    ("<slug:slug>/account/password/reset/confirm/", "password_reset_confirm",
     "rest_password_reset_confirm");
    ("<slug:slug>/account/password/reset/", "password_reset",
     "rest_password_reset");
    ("<slug:slug>/account/password/change/", "password_change",
     "rest_password_change");
    ("<slug:slug>/account/token/", "obtain_auth_token", "user_auth_token");
    ("<slug:slug>/account/token/validate/", "validate_auth_token",
     "validate_auth_token");
    ("<slug:slug>/account/session/", "user_accounting", "user_accounting");
    ("<slug:slug>/account/phone/token/", "create_phone_token",
     "phone_token_create");
    ("<slug:slug>/account/phone/verify/", "validate_phone_token",
     "phone_token_validate");
    ("<slug:slug>/account/phone/change/", "change_phone_number",
     "phone_number_change");
    ("radiusbatch/", "batch", "batch");
    ("<slug:slug>/radiusbatch/<uuid:radbatch>/pdf/", "download_rad_batch_pdf",
     "download_rad_batch_pdf") ].

(** The list display is evaluated from left to right; the first attribute
    that is missing ends it. *)
Fixpoint build_paths {View} (module : gmap string View)
    (table : list (string * string * string))
  : AttributeError + list (URLPattern View) :=
  match table with
  | [] => inr []
  | (route', attr, name') :: rest =>
      match getattr module attr with
      | inl e => inl e
      | inr v =>
          match build_paths module rest with
          | inl e => inl e
          | inr patterns =>
              inr ({| route := route'; view := v; name := name' |} :: patterns)
          end
      end
  end.

Section get_api_urls.

(** The views, and the module [views] used when [api_views] is not
    given. *)
Variable View : Type.
Variable views : gmap string View.

Definition get_api_urls (api_views : option (gmap string View))
  : AttributeError + list (URLPattern View) :=
  let api_views := match api_views with
                   | None => views
                   | Some api_views => api_views
                   end in
  build_paths api_views url_table.

End get_api_urls.
End Urls.

(** ** More sample data *)

Module Scenario.

(** A registration that fails validation. *)
Definition refuse_registration (serializer : unit) : Eff Database User :=
  raise (ValidationError [("username", ["This field is required."])]).

(** The sample database after [alice] obtained the token [k0]. *)
Definition database_with_token : Database :=
  {| organizations := organizations Sample.database;
     organization_users := organization_users Sample.database;
     auth_tokens := [{| token_user := 1; key := "k0" |}];
     warnings := [] |}.

(** The login request of [alice]. *)
Definition alice_login : Request :=
  {| data := <["username" := "alice"]> (<["password" := "pw"]> ∅);
     GET := ∅; META := ∅; auth := None |}.

(** A login request with a wrong password. *)
Definition wrong_password : Request :=
  {| data := <["username" := "alice"]> (<["password" := "no"]> ∅);
     GET := ∅; META := ∅; auth := None |}.

(** Token keys numbered by the size of the token table. *)
Definition numbered_key (db : Database) : string :=
  match auth_tokens db with
  | [] => "k0"
  | _ :: _ => "k1"
  end.

(** A batch creation that returns the options it was given. *)
Definition echo_batch (serializer : unit) (options : gmap string KwValue)
  : Eff Database (gmap string KwValue) := ret options.

(** A serializer factory that returns the data it was given. *)
Definition echo_serializer (args : unit)
    (kwargs_data : option (gmap string (option string)))
  : option (gmap string (option string)) := kwargs_data.

(** A module that defines every view the URL table names, each view
    standing for itself. *)
Definition all_views : gmap string string :=
  list_to_map (List.map (λ entry, (snd (fst entry), snd (fst entry))) Urls.url_table).

(** The views the module [views] defines. *)
Definition defined_views : gmap string string :=
  list_to_map
    (List.map (λ v, (v, v))
       ["authorize"; "postauth"; "accounting"; "batch"; "register";
        "obtain_auth_token"]).

End Scenario.

(** * Properties *)

(** ** Facts about the Python built-ins *)

Lemma split_nonempty sep s : Py.split sep s ≠ [].
Proof.
  destruct s as [|c rest]; simpl; [done|].
  destruct (Ascii.eqb c sep); [done|].
  by destruct (Py.split sep rest).
Qed.

(** A string without separator is a single part. *)
Lemma split_no_sep sep s :
  (∀ c, c ∈ list_ascii_of_string s → c ≠ sep) → Py.split sep s = [s].
Proof.
  induction s as [|c rest IH]; simpl; intros Hfree; [done|].
  destruct (Ascii.eqb_spec c sep) as [->|_].
  - exfalso. by apply (Hfree sep); [left|].
  - rewrite IH; [done|]. intros c' Hc'. apply Hfree. by right.
Qed.

(** Splitting [p ++ sep ++ s] cuts off [p] when [p] has no separator. *)
Lemma split_app_sep sep p s :
  (∀ c, c ∈ list_ascii_of_string p → c ≠ sep) →
  Py.split sep (p ++ String sep s) = p :: Py.split sep s.
Proof.
  induction p as [|c rest IH]; simpl; intros Hfree.
  - by rewrite Ascii.eqb_refl.
  - destruct (Ascii.eqb_spec c sep) as [->|_].
    + exfalso. by apply (Hfree sep); [left|].
    + rewrite IH; [done|]. intros c' Hc'. apply Hfree. by right.
Qed.

(** [split] undoes [join] on parts that are free of the separator. *)
Lemma split_join sep parts :
  parts ≠ [] →
  Forall (λ p, ∀ c, c ∈ list_ascii_of_string p → c ≠ sep) parts →
  Py.split sep (Py.join sep parts) = parts.
Proof.
  induction parts as [|p ps IH]; [done|]. intros _ Hfree.
  apply Forall_cons in Hfree as [Hp Hps].
  destruct ps as [|q qs].
  - simpl. by apply split_no_sep.
  - change (Py.join sep (p :: q :: qs)) with (p ++ String sep (Py.join sep (q :: qs))).
    rewrite split_app_sep by done. by rewrite IH.
Qed.

Lemma truthy_Some_inv v : Py.truthy v = true → ∃ s, v = Some s ∧ s ≠ "".
Proof. destruct v as [[|c s]|]; simpl; try done. intros _. by eexists. Qed.

Lemma contains_true {V} (d : gmap string V) k :
  Py.contains d k = true ↔ is_Some (d !! k).
Proof. unfold Py.contains. apply bool_decide_eq_true. Qed.

Lemma contains_false {V} (d : gmap string V) k :
  Py.contains d k = false ↔ d !! k = None.
Proof.
  unfold Py.contains. rewrite bool_decide_eq_false. by rewrite eq_None_not_Some.
Qed.

(** ** Facts about [objects.get] *)

Lemma objects_get_None {Row} (matches : Row → bool) table :
  (∀ row, row ∈ table → matches row = false) →
  objects_get matches table = inl DoesNotExist.
Proof.
  intros Hnone. unfold objects_get.
  destruct (List.filter matches table) as [|row rest] eqn:Hf; [done|].
  assert (In row (List.filter matches table)) as Hin by (rewrite Hf; by left).
  apply filter_In in Hin as [Hin Hm].
  rewrite (Hnone row) in Hm; [done|]. by apply list_elem_of_In.
Qed.

Lemma objects_get_Some {Row} (matches : Row → bool) table row :
  objects_get matches table = inr row → row ∈ table ∧ matches row = true.
Proof.
  unfold objects_get. intros Hget.
  destruct (List.filter matches table) as [|row' [|? ?]] eqn:Hf; try done.
  injection Hget as ->.
  assert (In row (List.filter matches table)) as Hin by (rewrite Hf; by left).
  apply filter_In in Hin as [Hin Hm]. split; [by apply list_elem_of_In|done].
Qed.

(** ** The organization-token authenticator *)

Section token_authentication.
Import TokenAuthentication.

Implicit Types (request : Request) (w : World).

(** [check_organization] and [get_uuid_token] leave the world alone. *)
Lemma check_organization_pass request w :
  data request !! "organization" = None →
  check_organization request w = (inr tt, w).
Proof.
  intros Hno. unfold check_organization.
  apply contains_false in Hno. by rewrite Hno.
Qed.

Lemma get_uuid_token_world request w :
  snd (get_uuid_token request w) = w.
Proof.
  unfold get_uuid_token.
  destruct (META request !! "HTTP_AUTHORIZATION") as [header|]; [|done].
  simpl. by destruct (Py.split " " header !! 1%nat), (Py.split " " header !! 2%nat).
Qed.

Lemma get_uuid_token_params request w :
  META request !! "HTTP_AUTHORIZATION" = None →
  get_uuid_token request w
  = (inr (GET request !! "uuid", GET request !! "token"), w).
Proof. intros Hno. unfold get_uuid_token. by rewrite Hno. Qed.


(** C9: a request whose [Authorization] header has fewer than three
    space-separated parts makes [get_uuid_token] raise [ParseError]
    (and not [AuthenticationFailed]), whatever [uuid] and [token] query
    parameters the request carries; [authenticate] raises the same
    [ParseError] once its guard on the request body has let the request
    through. *)
Theorem malformed_header_parse_error request w header :
  META request !! "HTTP_AUTHORIZATION" = Some header →
  length (Py.split " " header) < 3 →
  get_uuid_token request w = (inl (ParseError "Invalid token"), w)
  ∧ (data request !! "organization" = None →
     authenticate request w = (inl (ParseError "Invalid token"), w)).
Proof.
  intros Hheader Hshort.
  assert (get_uuid_token request w = (inl (ParseError "Invalid token"), w))
    as Hparse.
  { unfold get_uuid_token. rewrite Hheader. simpl.
    assert (Py.split " " header !! 2%nat = None) as ->
      by (apply lookup_ge_None; lia).
    by destruct (Py.split " " header !! 1%nat). }
  split; [done|]. intros Hbody. unfold authenticate, bind.
  by rewrite (check_organization_pass _ _ Hbody), Hparse.
Qed.

(** C10: when the [Authorization] header has at least three parts,
    [get_uuid_token] returns its second and third parts; the result does
    not depend on the query parameters, on the first part (the scheme) or
    on the parts after the third. *)
Theorem header_overrides_params request w header scheme uuid tok extra :
  META request !! "HTTP_AUTHORIZATION" = Some header →
  Py.split " " header = scheme :: uuid :: tok :: extra →
  get_uuid_token request w = (inr (Some uuid, Some tok), w).
Proof.
  intros Hheader Hparts. unfold get_uuid_token.
  by rewrite Hheader, Hparts.
Qed.

(** X6: a header written as [scheme uuid token ...] with parts free of spaces
    is well formed in the sense of the theorem above. *)
Lemma header_of_parts request w scheme uuid tok extra :
  Forall (λ p, ∀ c, c ∈ list_ascii_of_string p → c ≠ " "%char)
    (scheme :: uuid :: tok :: extra) →
  META request !! "HTTP_AUTHORIZATION"
    = Some (Py.join " " (scheme :: uuid :: tok :: extra)) →
  get_uuid_token request w = (inr (Some uuid, Some tok), w).
Proof.
  intros Hfree Hheader. unfold get_uuid_token.
  by rewrite Hheader, split_join.
Qed.

(** *** The steps of [authenticate] *)

Lemma check_organization_reject request w :
  is_Some (data request !! "organization") →
  authenticate request w
  = (inl (AuthenticationFailed
            "setting the organization parameter explicitly is not allowed"),
     w).
Proof.
  intros Hbody. apply contains_true in Hbody.
  unfold authenticate, bind, check_organization. by rewrite Hbody.
Qed.

(** With the body guard passed and non-empty credentials extracted,
    [authenticate] is [check_token]. *)
Lemma authenticate_check_token request w uuid tok :
  data request !! "organization" = None →
  fst (get_uuid_token request w) = inr (Some uuid, Some tok) →
  uuid ≠ "" → tok ≠ "" →
  authenticate request w
  = match check_token uuid tok w with
    | (inr _, w') => (inr (tt, uuid), w')
    | (inl e, w') => (inl e, w')
    end.
Proof.
  intros Hbody Hcred Huuid Htok. unfold authenticate, bind at 1 2.
  rewrite (check_organization_pass _ _ Hbody).
  pose proof (get_uuid_token_world request w) as Hw.
  destruct (get_uuid_token request w) as [res w']. simpl in *. subst.
  destruct uuid; [done|]. destruct tok; [done|]. simpl.
  unfold bind, ret. by destruct (check_token _ _ w) as [[e|[]] w''].
Qed.

(** The cold branch: the entry under the key ["uuid"] is absent or
    empty, the settings table is queried, and a hit is cached under the
    primary key of the row found. *)
Lemma check_token_cold uuid tok w :
  Py.truthy (cache w !! "uuid") = false →
  check_token uuid tok w
  = match objects_get
            (λ r, bool_decide (organization r = uuid) && bool_decide (token r = tok))
            (settings_table w) with
    | inr instance =>
        (inr tt,
         {| cache := <[pk instance := token instance]> (cache w);
            settings_table := settings_table w;
            trace := trace w ++ [CacheGet "uuid"; StoreGet uuid tok;
                                 CacheSet (pk instance) (token instance)] |})
    | inl e =>
        (inl match e with
             | DoesNotExist => AuthenticationFailed _TOKEN_AUTH_FAILED
             | _ => e
             end,
         {| cache := cache w; settings_table := settings_table w;
            trace := trace w ++ [CacheGet "uuid"; StoreGet uuid tok] |})
    end.
Proof.
  intros Hcold. unfold check_token, bind at 1, cache_get. simpl.
  rewrite Hcold. simpl.
  unfold try_except, bind, settings_get, cache_set, raise. simpl.
  destruct (objects_get _ _) as [e|instance]; simpl.
  - rewrite <- app_assoc. by destruct e.
  - by rewrite <- !app_assoc.
Qed.

(** The warm branch: the entry under the key ["uuid"] is a non-empty
    string, and the token is compared with the entry of the
    organization. *)
Lemma check_token_warm uuid tok w :
  Py.truthy (cache w !! "uuid") = true →
  check_token uuid tok w
  = (if bool_decide (cache w !! uuid ≠ Some tok)
     then inl (AuthenticationFailed _TOKEN_AUTH_FAILED)
     else inr tt,
     {| cache := cache w; settings_table := settings_table w;
        trace := trace w ++ [CacheGet "uuid"; CacheGet uuid] |}).
Proof.
  intros Hwarm. unfold check_token, bind at 1, cache_get. simpl.
  rewrite Hwarm. simpl. unfold bind, raise, ret. simpl.
  rewrite <- app_assoc. by case_bool_decide.
Qed.

(** C4: a request whose body has an [organization] field is rejected with
    [AuthenticationFailed] by the first step of [authenticate]: the world
    comes back as it was (no cache access and no store lookup is logged,
    the cache is not written), and the outcome is the same whatever
    credentials, valid or not, well formed or not, the request carries. *)
Theorem explicit_organization_rejected request w :
  is_Some (data request !! "organization") →
  fst (authenticate request w)
  = inl (AuthenticationFailed
           "setting the organization parameter explicitly is not allowed")
  ∧ snd (authenticate request w) = w.
Proof.
  intros Hbody. by rewrite (check_organization_reject _ _ Hbody).
Qed.

(** Absent or empty credentials are rejected. *)
Lemma missing_credentials_rejected request w uuid tok :
  fst (get_uuid_token request w) = inr (uuid, tok) →
  Py.truthy uuid = false ∨ Py.truthy tok = false →
  ∃ detail, fst (authenticate request w) = inl (AuthenticationFailed detail).
Proof.
  intros Hcred Hmissing.
  destruct (data request !! "organization") as [v|] eqn:Hbody.
  { eexists. by rewrite check_organization_reject. }
  exists _TOKEN_AUTH_FAILED. unfold authenticate, bind.
  rewrite (check_organization_pass _ _ Hbody).
  destruct (get_uuid_token request w) as [res w']. simpl in Hcred. subst.
  destruct uuid as [uuid|], tok as [tok|]; try done.
  destruct uuid, tok; simpl in *; try done; by destruct Hmissing.
Qed.

(** C1: a request whose token equals neither the cached token of the
    presented organization nor the token stored for it is rejected with
    [AuthenticationFailed].  Nothing is assumed about the other rows of
    the settings table: the token may well be the valid token of another
    organization. *)
Theorem no_cross_tenant_acceptance request w uuid tok :
  fst (get_uuid_token request w) = inr (uuid, Some tok) →
  (∀ org_id, uuid = Some org_id →
     cache w !! org_id ≠ Some tok
     ∧ ∀ r, r ∈ settings_table w → organization r = org_id → token r ≠ tok) →
  ∃ detail, fst (authenticate request w) = inl (AuthenticationFailed detail).
Proof.
  intros Hcred Hmismatch.
  destruct (Py.truthy uuid) eqn:Huuid;
    [|by eapply missing_credentials_rejected; [done|left]].
  destruct (Py.truthy_str tok) eqn:Htok;
    [|by eapply missing_credentials_rejected; [done|right]].
  apply truthy_Some_inv in Huuid as (org_id & -> & Hne).
  destruct (Hmismatch org_id eq_refl) as [Hcache Hstore].
  destruct (data request !! "organization") as [v|] eqn:Hbody.
  { eexists. by rewrite check_organization_reject. }
  exists _TOKEN_AUTH_FAILED.
  rewrite (authenticate_check_token _ _ org_id tok) by (done || by destruct tok).
  destruct (Py.truthy (cache w !! "uuid")) eqn:Hsentinel.
  - rewrite check_token_warm by done. by rewrite bool_decide_true.
  - rewrite check_token_cold by done.
    rewrite objects_get_None; [done|].
    intros r Hr. apply andb_false_iff.
    destruct (decide (organization r = org_id)) as [Horg|Horg].
    + right. apply bool_decide_eq_false. by apply Hstore.
    + left. by apply bool_decide_eq_false.
Qed.

(** *** What the cache does and does not do *)

(** Unless the cache holds a non-empty entry under the literal key
    ["uuid"], the settings table is queried: an entry for the presented
    organization makes no difference. *)
Lemma cold_sentinel_queries_store request w uuid tok :
  data request !! "organization" = None →
  fst (get_uuid_token request w) = inr (Some uuid, Some tok) →
  uuid ≠ "" → tok ≠ "" →
  Py.truthy (cache w !! "uuid") = false →
  StoreGet uuid tok ∈ trace (snd (authenticate request w)).
Proof.
  intros Hbody Hcred Huuid Htok Hcold.
  rewrite (authenticate_check_token _ _ uuid tok) by done.
  rewrite check_token_cold by done.
  destruct (objects_get _ _) as [e|instance]; simpl;
    rewrite !elem_of_app, !elem_of_cons; auto.
Qed.

(** A valid pair presented in the cold branch is accepted, and its token
    is cached under the primary key of the settings row. *)
Lemma cold_lookup_caches_under_pk request w uuid tok instance :
  data request !! "organization" = None →
  fst (get_uuid_token request w) = inr (Some uuid, Some tok) →
  uuid ≠ "" → tok ≠ "" →
  Py.truthy (cache w !! "uuid") = false →
  objects_get (λ r, bool_decide (organization r = uuid) && bool_decide (token r = tok))
    (settings_table w) = inr instance →
  fst (authenticate request w) = inr (tt, uuid)
  ∧ cache (snd (authenticate request w)) = <[pk instance := tok]> (cache w).
Proof.
  intros Hbody Hcred Huuid Htok Hcold Hget.
  rewrite (authenticate_check_token _ _ uuid tok) by done.
  rewrite check_token_cold by done. rewrite Hget. simpl. split; [done|].
  apply objects_get_Some in Hget as [_ Hm].
  apply andb_true_iff in Hm as [_ Hm]. apply bool_decide_eq_true in Hm.
  by rewrite Hm.
Qed.

(** When the primary key of the settings row is the identifier of its
    organization, the cold lookup leaves the pair in the cache. *)
Lemma cold_lookup_caches_pair request w uuid tok instance :
  data request !! "organization" = None →
  fst (get_uuid_token request w) = inr (Some uuid, Some tok) →
  uuid ≠ "" → tok ≠ "" →
  Py.truthy (cache w !! "uuid") = false →
  objects_get (λ r, bool_decide (organization r = uuid) && bool_decide (token r = tok))
    (settings_table w) = inr instance →
  pk instance = organization instance →
  cache (snd (authenticate request w)) !! uuid = Some tok.
Proof.
  intros Hbody Hcred Huuid Htok Hcold Hget Hpk.
  destruct (cold_lookup_caches_under_pk _ _ _ _ _ Hbody Hcred Huuid Htok Hcold Hget)
    as [_ ->].
  apply objects_get_Some in Hget as [_ Hm].
  apply andb_true_iff in Hm as [Hm _]. apply bool_decide_eq_true in Hm.
  rewrite Hpk, Hm. apply lookup_insert_eq.
Qed.

(** In the warm branch a matching entry is accepted without a store
    lookup, and the cache is left as it was. *)
Lemma warm_sentinel_match request w uuid tok :
  data request !! "organization" = None →
  fst (get_uuid_token request w) = inr (Some uuid, Some tok) →
  uuid ≠ "" → tok ≠ "" →
  Py.truthy (cache w !! "uuid") = true →
  cache w !! uuid = Some tok →
  authenticate request w
  = (inr (tt, uuid),
     {| cache := cache w; settings_table := settings_table w;
        trace := trace w ++ [CacheGet "uuid"; CacheGet uuid] |}).
Proof.
  intros Hbody Hcred Huuid Htok Hwarm Hentry.
  rewrite (authenticate_check_token _ _ uuid tok) by done.
  rewrite check_token_warm by done.
  rewrite bool_decide_false; [done|]. by intros [].
Qed.

(** C2: with the matching entry [U1 -> secret1] in the cache and the
    valid pair presented, [authenticate] succeeds but queries the settings
    table all the same: the cache is tested under the literal key
    ["uuid"], which holds nothing. *)
Theorem warm_cache_still_queries_store :
  let w := Sample.world (<["U1" := "secret1"]> ∅) in
  let out := authenticate (Sample.params_request "U1" "secret1") w in
  cache w !! "U1" = Some "secret1"
  ∧ fst out = inr (tt, "U1")
  ∧ trace (snd out)
    = [CacheGet "uuid"; StoreGet "U1" "secret1"; CacheSet "S1" "secret1"].
Proof. vm_compute. done. Qed.

(** C3: with an empty cache and the valid pair of [U1] presented,
    [authenticate] succeeds, but the token is cached under the primary key
    [S1] of the settings row, and the cache still has no entry for the
    organization [U1]. *)
Theorem cold_cache_keyed_by_settings_pk :
  let w := Sample.world ∅ in
  let out := authenticate (Sample.params_request "U1" "secret1") w in
  fst out = inr (tt, "U1")
  ∧ cache (snd out) !! "U1" = None
  ∧ cache (snd out) !! "S1" = Some "secret1"
  ∧ trace (snd out)
    = [CacheGet "uuid"; StoreGet "U1" "secret1"; CacheSet "S1" "secret1"].
Proof. vm_compute. done. Qed.

End token_authentication.

(** ** Scope enforcement in the token-authenticated views *)

Lemma exists_filter {Row} (p : Row → bool) (rows : list Row) :
  exists_ (List.filter p rows) = true ↔ ∃ row, row ∈ rows ∧ p row = true.
Proof.
  split.
  - destruct (List.filter p rows) as [|row rest] eqn:Hf; [done|]. intros _.
    assert (In row (List.filter p rows)) as Hin by (rewrite Hf; by left).
    apply filter_In in Hin as [Hin Hp]. exists row.
    by rewrite list_elem_of_In.
  - intros (row & Hin & Hp).
    assert (In row (List.filter p rows)) as Hin'
      by (apply filter_In; by rewrite <- list_elem_of_In).
    by destruct (List.filter p rows).
Qed.

(** The membership query of the views finds a row exactly when the user is
    a member. *)
Lemma membership_exists db user org_id :
  exists_ (membership_filter user (Some org_id) (organization_users db)) = true
  ↔ is_member db user org_id.
Proof.
  unfold membership_filter, is_member. rewrite exists_filter. split.
  - intros ([u o] & Hin & Hp). simpl in Hp.
    apply andb_true_iff in Hp as [Hu Ho].
    apply bool_decide_eq_true in Hu, Ho. by simplify_eq.
  - intros Hin. eexists. split; [done|]. simpl.
    by rewrite !bool_decide_true.
Qed.

Section scoped_views.
Import AuthorizeView AccountingView.

(** A member of the authenticated organization is returned as found. *)
Lemma get_user_member super_get_user db request user org_id :
  auth request = Some org_id →
  super_get_user request = Some user →
  is_member db user org_id →
  get_user super_get_user db request = Some user.
Proof.
  intros Hauth Hfound Hmember. unfold get_user. rewrite Hfound, Hauth.
  apply membership_exists in Hmember. by rewrite Hmember.
Qed.

(** C5: when the base lookup finds a user who has no membership row for
    the authenticated organization, [get_user] returns [None], which is
    also what it returns for a request naming a user that does not
    exist. *)
Theorem non_member_as_nonexistent super_get_user db request request' user org_id :
  auth request = Some org_id →
  super_get_user request = Some user →
  ¬ is_member db user org_id →
  super_get_user request' = None →
  get_user super_get_user db request = None
  ∧ get_user super_get_user db request = get_user super_get_user db request'.
Proof.
  intros Hauth Hfound Hmember Hmissing.
  assert (get_user super_get_user db request = None) as ->.
  { unfold get_user. rewrite Hfound, Hauth.
    destruct (exists_ _) eqn:Hex; [|done].
    by apply membership_exists in Hex. }
  split; [done|]. unfold get_user. by rewrite Hmissing.
Qed.

(** The listing is exactly the rows of the base queryset that belong to
    the authenticated organization. *)
Lemma get_queryset_spec super_get_queryset request org_id row :
  auth request = Some org_id →
  row ∈ get_queryset super_get_queryset request
  ↔ row ∈ super_get_queryset ∧ acct_organization row = org_id.
Proof.
  intros Hauth. unfold get_queryset.
  rewrite !list_elem_of_In, filter_In, Hauth, bool_decide_eq_true.
  split; intros [? ?]; split; congruence.
Qed.

(** C6: every row [get_queryset] returns for a request authenticated for
    organization [org_a] belongs to [org_a]; no row of another
    organization [org_b] is returned, whatever the base queryset
    holds. *)
Theorem accounting_scoped super_get_queryset request org_a :
  auth request = Some org_a →
  Forall (λ row, acct_organization row = org_a)
    (get_queryset super_get_queryset request)
  ∧ ∀ org_b row, org_b ≠ org_a → acct_organization row = org_b →
      row ∉ get_queryset super_get_queryset request.
Proof.
  intros Hauth. split.
  - apply Forall_forall. intros row Hin.
    apply (get_queryset_spec _ _ org_a) in Hin; [|done]. by destruct Hin.
  - intros org_b row Hne Horg Hin.
    apply (get_queryset_spec _ _ org_a) in Hin; [|done].
    destruct Hin. congruence.
Qed.

End scoped_views.

(** ** The slug-addressed views *)

Lemma string_app_assoc (a b c : string) : (a ++ b) ++ c = a ++ b ++ c.
Proof.
  induction a as [|ch a IH]; [done|].
  change (String ch ((a ++ b) ++ c) = String ch (a ++ b ++ c)). by rewrite IH.
Qed.

Section slug_views.
Import DispatchOrgMixin RegisterView ObtainAuthTokenView.

(** X15: an unknown slug ends the request with a 404 before the handler
    runs. *)
Lemma dispatch_unknown_slug {A} slug' (handler : Organization → Eff Database A) db :
  (∀ org, org ∈ organizations db → slug org ≠ slug') →
  dispatch slug' handler db = (inl Http404, db).
Proof.
  intros Hnone. unfold dispatch, bind, try_except, organization_get.
  rewrite objects_get_None; [done|].
  intros org Hin. apply bool_decide_eq_false. by apply Hnone.
Qed.

(** A slug that names one organization hands it to the handler. *)
Lemma dispatch_resolved {A} slug' (handler : Organization → Eff Database A) db org :
  objects_get (λ o, bool_decide (slug o = slug')) (organizations db) = inr org →
  dispatch slug' handler db = handler org db.
Proof.
  intros Hget. unfold dispatch, bind, try_except, organization_get.
  by rewrite Hget.
Qed.

(** [organizations_pk] holds the organization exactly when the user is a
    member of it. *)
Lemma organizations_pk_member db user org_id :
  (∃ pks, fst (organizations_pk user db) = inr pks ∧ org_id ∈ pks)
  ↔ is_member db user org_id.
Proof.
  unfold organizations_pk, is_member. simpl. split.
  - intros (pks & [= <-] & Hin).
    apply list_elem_of_In, in_map_iff in Hin as ([u o] & Ho & Hin).
    apply filter_In in Hin as [Hin Hu]. simpl in *.
    apply bool_decide_eq_true in Hu. subst. by apply list_elem_of_In.
  - intros Hin. eexists. split; [done|].
    apply list_elem_of_In, in_map_iff.
    exists {| ou_user := user_pk user; ou_organization_id := org_id |}.
    split; [|apply filter_In; split].
    + done.
    + by apply list_elem_of_In.
    + simpl. by apply bool_decide_eq_true.
Qed.

(** The membership message names the user and the organization slug. *)
Lemma not_member_message_names name slug' :
  ∃ before between after,
    not_member_message name slug' = before ++ name ++ between ++ slug' ++ after.
Proof.
  exists ("User " ++ Py.dquote), (Py.dquote ++ " is not member of " ++ Py.dquote),
    Py.dquote.
  unfold not_member_message, Py.quoted. by rewrite !string_app_assoc.
Qed.

(** It differs from the message for invalid credentials from its second
    character on. *)
Lemma not_member_message_distinct name slug' :
  not_member_message name slug' ≠ "Unable to log in with provided credentials.".
Proof.
  unfold not_member_message.
  change ("User " ++ ?rest) with (String "U" (String "s" ("er " ++ rest))).
  discriminate.
Qed.

(** Wrong credentials: the failure of the serializer is raised as it is,
    nothing is logged and no token is created. *)
Lemma post_invalid_credentials auth_token_serializer generate_key
    org slug' request db e :
  auth_token_serializer (data request) = inl e →
  post auth_token_serializer generate_key org slug' request db = (inl e, db).
Proof.
  intros Hinvalid. unfold post, bind, validated_user. by rewrite Hinvalid.
Qed.

(** A user that is not a member: a warning is logged and the membership
    error is raised. *)
Lemma post_not_member auth_token_serializer generate_key
    org slug' request db user :
  auth_token_serializer (data request) = inr user →
  ¬ is_member db user (org_pk org) →
  post auth_token_serializer generate_key org slug' request db
  = (inl (ValidationError
            [("non_field_errors", [not_member_message (username user) slug'])]),
     {| organizations := organizations db;
        organization_users := organization_users db;
        auth_tokens := auth_tokens db;
        warnings := warnings db ++ [not_member_message (username user) slug'] |}).
Proof.
  intros Hvalid Hmember.
  unfold post, bind at 1 2, validated_user. rewrite Hvalid.
  destruct (organizations_pk user db) as [res db'] eqn:Hpks.
  unfold organizations_pk in Hpks. injection Hpks as <- <-.
  rewrite bool_decide_false; [done|].
  intros Hin. apply Hmember, organizations_pk_member.
  eexists. split; [done|]. exact Hin.
Qed.

(** C7: when the credentials are valid but the user is not a member of
    the organization the slug resolves to, the login view raises a
    [ValidationError] whose message names the user and the slug; the error
    differs from the one for invalid credentials, a warning is logged and
    the token table is left as it was. *)
Theorem non_member_login_rejected auth_token_serializer generate_key
    slug' request db org user :
  objects_get (λ o, bool_decide (slug o = slug')) (organizations db) = inr org →
  auth_token_serializer (data request) = inr user →
  ¬ is_member db user (org_pk org) →
  let out := obtain_auth_token auth_token_serializer generate_key slug' request db in
  let message := "User " ++ Py.quoted (username user)
                   ++ " is not member of " ++ Py.quoted slug' in
  fst out = inl (ValidationError [("non_field_errors", [message])])
  ∧ fst out ≠ inl invalid_credentials
  ∧ auth_tokens (snd out) = auth_tokens db
  ∧ warnings (snd out) = (warnings db ++ [message])%list.
Proof.
  intros Hget Hvalid Hmember out message. subst out. unfold obtain_auth_token.
  rewrite (dispatch_resolved _ _ _ _ Hget).
  rewrite (post_not_member _ _ _ _ _ _ _ Hvalid Hmember). simpl.
  split_and!; [done| |done|done].
  unfold invalid_credentials. intros Heq.
  apply (not_member_message_distinct (username user) slug'). congruence.
Qed.

(** A member gets a token: the one the user has, or a new one. *)
Lemma member_login_token auth_token_serializer generate_key
    slug' request db org user :
  objects_get (λ o, bool_decide (slug o = slug')) (organizations db) = inr org →
  auth_token_serializer (data request) = inr user →
  is_member db user (org_pk org) →
  (∀ t, t ∈ auth_tokens db → token_user t ≠ user_pk user) →
  obtain_auth_token auth_token_serializer generate_key slug' request db
  = (inr {| token_user := user_pk user; key := generate_key db |},
     {| organizations := organizations db;
        organization_users := organization_users db;
        auth_tokens := auth_tokens db
                         ++ [{| token_user := user_pk user; key := generate_key db |}];
        warnings := warnings db |}).
Proof.
  intros Hget Hvalid Hmember Hfresh. unfold obtain_auth_token.
  rewrite (dispatch_resolved _ _ _ _ Hget).
  unfold post, bind at 1 2, validated_user. rewrite Hvalid.
  destruct (organizations_pk user db) as [res db'] eqn:Hpks.
  apply organizations_pk_member in Hmember as (pks & Hpks' & Hin).
  rewrite Hpks in Hpks'. simpl in Hpks'. subst res.
  unfold organizations_pk in Hpks. injection Hpks as _ <-.
  rewrite bool_decide_true by done. simpl.
  unfold bind, token_get_or_create, try_except.
  rewrite objects_get_None; [done|].
  intros t Ht. apply bool_decide_eq_false. by apply Hfresh.
Qed.

(** C8: when the slug resolves to an organization and the base
    [perform_create] creates a user, [perform_create] returns that user
    and the database it leaves holds the membership row of the user in the
    organization. *)
Theorem registration_adds_membership (Serializer : Type)
    (super_perform_create : Serializer → Eff Database User)
    slug' serializer db org user db1 :
  objects_get (λ o, bool_decide (slug o = slug')) (organizations db) = inr org →
  super_perform_create serializer db = (inr user, db1) →
  let out := register Serializer super_perform_create slug' serializer db in
  fst out = inr user ∧ is_member (snd out) user (org_pk org).
Proof.
  intros Hget Hcreate. simpl. unfold register.
  rewrite (dispatch_resolved _ _ _ _ Hget).
  unfold perform_create, bind, add_user, ret. rewrite Hcreate. simpl.
  split; [done|]. unfold is_member. simpl.
  rewrite elem_of_app, list_elem_of_singleton. by right.
Qed.

(** A failed creation adds no membership row. *)
Lemma registration_failed (Serializer : Type)
    (super_perform_create : Serializer → Eff Database User)
    org serializer db e db1 :
  super_perform_create serializer db = (inl e, db1) →
  perform_create Serializer super_perform_create org serializer db = (inl e, db1).
Proof. intros Hfail. unfold perform_create, bind. by rewrite Hfail. Qed.

End slug_views.

(** ** The properties on the sample data *)

Section on_sample_data.
Import TokenAuthentication AuthorizeView AccountingView.
Import DispatchOrgMixin RegisterView ObtainAuthTokenView.

(** [Token abc] has two parts only: a parse error, although the query
    string carries the valid credentials of [U2]. *)
Lemma malformed_header_parse_error_witness :
  let request := Sample.header_request "Token abc" ∅ in
  let w := Sample.world ∅ in
  META request !! "HTTP_AUTHORIZATION" = Some "Token abc"
  ∧ length (Py.split " " "Token abc") < 3
  ∧ get_uuid_token request w = (inl (ParseError "Invalid token"), w)
  ∧ authenticate request w = (inl (ParseError "Invalid token"), w).
Proof.
  intros request w.
  assert (META request !! "HTTP_AUTHORIZATION" = Some "Token abc") as Hheader
    by reflexivity.
  assert (length (Py.split " " "Token abc") < 3) as Hshort
    by (vm_compute; lia).
  destruct (malformed_header_parse_error request w "Token abc" Hheader Hshort)
    as [Hparse Hauth].
  split_and!; [exact Hheader|exact Hshort|exact Hparse|].
  apply Hauth. reflexivity.
Defined.

(** The header wins over the query string; the scheme and a fourth part
    play no role. *)
Lemma header_overrides_params_witness :
  let request := Sample.header_request "Bearer U1 secret1 more" ∅ in
  let w := Sample.world ∅ in
  GET request !! "uuid" = Some "U2"
  ∧ GET request !! "token" = Some "secret2"
  ∧ get_uuid_token request w = (inr (Some "U1", Some "secret1"), w).
Proof.
  intros request w. split_and!; [reflexivity|reflexivity|].
  apply (header_overrides_params request w "Bearer U1 secret1 more"
           "Bearer" "U1" "secret1" ["more"]); reflexivity.
Defined.

(** The valid credentials of [U1] in the header do not help a request
    whose body names an organization. *)
Lemma explicit_organization_rejected_witness :
  let request :=
    Sample.header_request "Bearer U1 secret1" (<["organization" := "U2"]> ∅) in
  let w := Sample.world ∅ in
  is_Some (data request !! "organization")
  ∧ fst (authenticate request w)
    = inl (AuthenticationFailed
             "setting the organization parameter explicitly is not allowed")
  ∧ snd (authenticate request w) = w.
Proof.
  intros request w.
  assert (is_Some (data request !! "organization")) as Hbody
    by (exists "U2"; reflexivity).
  split; [exact Hbody|]. exact (explicit_organization_rejected request w Hbody).
Defined.

(** [secret2] is the token of [U2]; presented for [U1] it is rejected. *)
Lemma no_cross_tenant_acceptance_witness :
  let request := Sample.params_request "U1" "secret2" in
  let w := Sample.world ∅ in
  Sample.settings_U2 ∈ settings_table w
  ∧ ∃ detail, fst (authenticate request w) = inl (AuthenticationFailed detail).
Proof.
  intros request w. split; [right; left|].
  apply (no_cross_tenant_acceptance request w (Some "U1") "secret2");
    [reflexivity|].
  intros org_id [= <-]. split; [discriminate|].
  intros r Hr Horg Htok.
  apply elem_of_cons in Hr as [->|Hr]; [discriminate Htok|].
  apply elem_of_cons in Hr as [->|Hr]; [discriminate Horg|].
  by apply elem_of_nil in Hr.
Defined.

(** [alice] is known but not a member of [U2]: the lookup answers as for
    an unknown name. *)
Lemma non_member_as_nonexistent_witness :
  let request := Sample.authenticated_request "U2" (<["username" := "alice"]> ∅) in
  let request' := Sample.authenticated_request "U2" (<["username" := "zoe"]> ∅) in
  Sample.lookup_user request = Some Sample.alice
  ∧ Sample.lookup_user request' = None
  ∧ get_user Sample.lookup_user Sample.database request = None
  ∧ get_user Sample.lookup_user Sample.database request
    = get_user Sample.lookup_user Sample.database request'.
Proof.
  intros request request'. split_and!; [reflexivity|reflexivity| |].
  all: apply (non_member_as_nonexistent Sample.lookup_user Sample.database
                request request' Sample.alice "U2");
    try reflexivity.
  all: intros Hin; apply elem_of_cons in Hin as [Heq|Hin];
    [discriminate Heq|by apply elem_of_nil in Hin].
Defined.

(** Of the three sessions only the two of [U1] are listed. *)
Lemma accounting_scoped_witness :
  let request := Sample.authenticated_request "U1" ∅ in
  get_queryset Sample.accounting_rows request
  = [ {| unique_id := "s1"; acct_username := "alice"; acct_organization := "U1" |};
      {| unique_id := "s3"; acct_username := "alice"; acct_organization := "U1" |} ]
  ∧ Forall (λ row, acct_organization row = "U1")
      (get_queryset Sample.accounting_rows request)
  ∧ ∀ org_b row, org_b ≠ "U1" → acct_organization row = org_b →
      row ∉ get_queryset Sample.accounting_rows request.
Proof.
  intros request. split; [reflexivity|].
  apply (accounting_scoped Sample.accounting_rows request "U1"). reflexivity.
Defined.

(** [alice] logs in under the slug of [org_B], of which she is not a
    member. *)
Lemma non_member_login_rejected_witness :
  let request :=
    Sample.authenticated_request "U2"
      (<["username" := "alice"]> (<["password" := "pw"]> ∅)) in
  let out := obtain_auth_token Sample.check_credentials (λ _, "k1")
               "org-b" request Sample.database in
  let message := "User " ++ Py.quoted "alice"
                   ++ " is not member of " ++ Py.quoted "org-b" in
  fst out = inl (ValidationError [("non_field_errors", [message])])
  ∧ fst out ≠ inl invalid_credentials
  ∧ auth_tokens (snd out) = []
  ∧ warnings (snd out) = [message].
Proof.
  intros request.
  apply (non_member_login_rejected Sample.check_credentials (λ _, "k1")
           "org-b" request Sample.database Sample.org_B Sample.alice);
    [reflexivity|reflexivity|].
  intros Hin. apply elem_of_cons in Hin as [Heq|Hin];
    [discriminate Heq|by apply elem_of_nil in Hin].
Defined.

(** [bob] registers under the slug of [org_A] and is a member of it
    afterwards. *)
Lemma registration_adds_membership_witness :
  let out := register unit Sample.create_bob "org-a" tt Sample.database in
  fst out = inr Sample.bob ∧ is_member (snd out) Sample.bob "U1".
Proof.
  apply (registration_adds_membership unit Sample.create_bob "org-a" tt
           Sample.database Sample.org_A Sample.bob Sample.database);
    reflexivity.
Defined.

End on_sample_data.

(** * Further properties of the views *)

(** ** The authenticator *)

Section token_authentication_more.
Import TokenAuthentication.

Implicit Types (request : Request) (w : World).

(** [split] yields one part more than there are separators. *)
Lemma split_length sep s :
  length (Py.split sep s)
  = S (count_occ ascii_dec (list_ascii_of_string s) sep).
Proof.
  induction s as [|c rest IH]; [done|]. simpl.
  destruct (Ascii.eqb_spec c sep) as [->|Hne].
  - simpl. rewrite IH. by destruct (ascii_dec sep sep).
  - destruct (ascii_dec c sep) as [?|_]; [done|].
    destruct (Py.split sep rest) eqn:Hsplit; [by apply split_nonempty in Hsplit|].
    by rewrite <- IH.
Qed.

(** Either [authenticate] stops before it reaches the cache, with the world
    untouched, or it runs [check_token] on non-empty credentials. *)
Lemma authenticate_cases request w :
  (∃ e, authenticate request w = (inl e, w)
        ∧ (data request !! "organization" = None →
           ∀ uuid tok, fst (get_uuid_token request w) = inr (Some uuid, Some tok) →
                       uuid = "" ∨ tok = ""))
  ∨ (∃ uuid tok,
       data request !! "organization" = None
       ∧ fst (get_uuid_token request w) = inr (Some uuid, Some tok)
       ∧ uuid ≠ "" ∧ tok ≠ ""
       ∧ authenticate request w
         = match check_token uuid tok w with
           | (inr _, w') => (inr (tt, uuid), w')
           | (inl e, w') => (inl e, w')
           end).
Proof.
  destruct (data request !! "organization") as [v|] eqn:Hbody.
  { left. eexists. split; [by apply check_organization_reject|done]. }
  destruct (get_uuid_token request w) as [res w'] eqn:Hget.
  assert (w' = w) as -> by (by rewrite <- (get_uuid_token_world request w), Hget).
  destruct res as [e|[[uuid|] [tok|]]].
  2:{ destruct (decide (uuid = "")) as [->|Huuid];
        [|destruct (decide (tok = "")) as [->|Htok]].
      3:{ right. exists uuid, tok. split_and!; try done.
          apply authenticate_check_token; try done. by rewrite Hget. }
      all: left; eexists; split;
        [unfold authenticate, bind; rewrite (check_organization_pass _ _ Hbody), Hget;
         simpl; try done; by destruct uuid
        |intros _ ?? [= -> ->]; auto]. }
  all: left; eexists; split;
    [unfold authenticate, bind; by rewrite (check_organization_pass _ _ Hbody), Hget
    |by intros _ ?? [=]].
Qed.

(** X1: a request is accepted exactly when its body names no organization, its
    credentials are non-empty, and either (no non-empty cache entry under
    the key [uuid]) exactly one settings row has the presented organization
    and token, or (such an entry) the cache holds the presented token for
    the presented organization.  The organization returned is the one
    presented. *)
Theorem authenticate_accepts_iff request w uuid :
  fst (authenticate request w) = inr (tt, uuid)
  ↔ data request !! "organization" = None
    ∧ ∃ tok, fst (get_uuid_token request w) = inr (Some uuid, Some tok)
        ∧ uuid ≠ "" ∧ tok ≠ ""
        ∧ if Py.truthy (cache w !! "uuid")
          then cache w !! uuid = Some tok
          else ∃ instance,
                 objects_get (λ r, bool_decide (organization r = uuid)
                                   && bool_decide (token r = tok))
                   (settings_table w) = inr instance.
Proof.
  split.
  - intros Hok.
    destruct (authenticate_cases request w)
      as [(e & He & _)|(uuid' & tok & Hbody & Hcred & Huuid & Htok & Hauth)];
      [by rewrite He in Hok|].
    rewrite Hauth in Hok. split; [done|].
    destruct (Py.truthy (cache w !! "uuid")) eqn:Hsentinel.
    + rewrite check_token_warm in Hok by done.
      case_bool_decide as Hcache; simpl in Hok; [done|].
      injection Hok as <-. exists tok. split_and!; try done.
    + rewrite check_token_cold in Hok by done.
      destruct (objects_get _ _) as [e|instance] eqn:Hget; simpl in Hok; [done|].
      injection Hok as <-. exists tok. split_and!; try done. by exists instance.
  - intros (Hbody & tok & Hcred & Huuid & Htok & Hcheck).
    rewrite (authenticate_check_token _ _ uuid tok) by done.
    destruct (Py.truthy (cache w !! "uuid")) eqn:Hsentinel.
    + rewrite check_token_warm by done. by rewrite bool_decide_false by (by intros []).
    + rewrite check_token_cold by done. destruct Hcheck as [instance ->]. done.
Qed.

(** X2: the settings table is never changed, and the cache is either left as it
    was or, on an accepted request, extended by one entry: the token of a
    settings row of the accepted organization, under the primary key of that
    row.  In particular a rejected request never writes the cache. *)
Theorem cache_written_only_on_stored_match request w :
  settings_table (snd (authenticate request w)) = settings_table w
  ∧ (cache (snd (authenticate request w)) = cache w
     ∨ ∃ instance,
         instance ∈ settings_table w
         ∧ fst (authenticate request w) = inr (tt, organization instance)
         ∧ cache (snd (authenticate request w))
           = <[pk instance := token instance]> (cache w)).
Proof.
  destruct (authenticate_cases request w)
    as [(e & -> & _)|(uuid & tok & Hbody & Hcred & Huuid & Htok & ->)];
    [by split; [|left]|].
  destruct (Py.truthy (cache w !! "uuid")) eqn:Hsentinel.
  - rewrite check_token_warm by done. by case_bool_decide; (split; [|left]).
  - rewrite check_token_cold by done.
    destruct (objects_get _ _) as [e|instance] eqn:Hget; simpl;
      [by split; [|left]|].
    split; [done|]. right. exists instance.
    apply objects_get_Some in Hget as [Hin Hm].
    apply andb_true_iff in Hm as [Horg _]. apply bool_decide_eq_true in Horg.
    by rewrite Horg.
Qed.

(** X3: a request that passes the body guard but lacks the organization
    identifier or the token, or carries an empty one, is rejected with
    [AuthenticationFailed] before the cache or the settings table is
    touched. *)
Theorem missing_credentials_untouched request w uuid tok :
  data request !! "organization" = None →
  fst (get_uuid_token request w) = inr (uuid, tok) →
  Py.truthy uuid = false ∨ Py.truthy tok = false →
  authenticate request w
  = (inl (AuthenticationFailed "Token authentication failed"), w).
Proof.
  intros Hbody Hcred Hmissing. unfold authenticate, bind.
  rewrite (check_organization_pass _ _ Hbody).
  pose proof (get_uuid_token_world request w) as Hw.
  destruct (get_uuid_token request w) as [res w']. simpl in *. subst.
  destruct uuid as [[|c uuid]|], tok as [[|c' tok]|]; simpl in *; try done;
    by destruct Hmissing.
Qed.

(** X4: with an [Authorization] header, [get_uuid_token] raises [ParseError]
    exactly when the header has fewer than two space characters; otherwise
    it returns credentials. *)
Theorem parse_error_iff_fewer_than_two_spaces request w header :
  META request !! "HTTP_AUTHORIZATION" = Some header →
  (fst (get_uuid_token request w) = inl (ParseError "Invalid token")
   ↔ (count_occ ascii_dec (list_ascii_of_string header) " "%char < 2)%nat)
  ∧ ((2 ≤ count_occ ascii_dec (list_ascii_of_string header) " "%char)%nat →
     ∃ uuid tok, fst (get_uuid_token request w) = inr (Some uuid, Some tok)).
Proof.
  intros Hheader. unfold get_uuid_token. rewrite Hheader. simpl.
  pose proof (split_length " " header) as Hlen.
  destruct (Py.split " " header) as [|p0 [|p1 [|p2 rest]]]; simpl in *.
  - lia.
  - split; [split; [lia|done]|lia].
  - split; [split; [lia|done]|lia].
  - split; [split; [done|lia]|]. intros _. by exists p1, p2.
Qed.

(** X5: when the cache holds a non-empty entry under the literal key [uuid],
    the settings table is not consulted and the cache is not written: the
    request is accepted if the cache holds the presented token for the
    presented organization and rejected otherwise, even when the pair is the
    stored one. *)
Theorem warm_branch_decides_on_cache_alone request w uuid tok :
  data request !! "organization" = None →
  fst (get_uuid_token request w) = inr (Some uuid, Some tok) →
  uuid ≠ "" → tok ≠ "" →
  Py.truthy (cache w !! "uuid") = true →
  authenticate request w
  = (if bool_decide (cache w !! uuid = Some tok)
     then inr (tt, uuid)
     else inl (AuthenticationFailed "Token authentication failed"),
     {| cache := cache w; settings_table := settings_table w;
        trace := trace w ++ [CacheGet "uuid"; CacheGet uuid] |}).
Proof.
  intros Hbody Hcred Huuid Htok Hwarm.
  rewrite (authenticate_check_token _ _ uuid tok) by done.
  rewrite check_token_warm by done.
  destruct (decide (cache w !! uuid = Some tok)) as [Heq|Hne].
  - rewrite bool_decide_false by (by intros []). by rewrite bool_decide_true.
  - rewrite bool_decide_true by done. by rewrite bool_decide_false.
Qed.

End token_authentication_more.

(** ** The token-authenticated views *)

Lemma filter_sublist {Row} (p : Row → bool) (rows : list Row) :
  sublist (List.filter p rows) rows.
Proof.
  induction rows as [|row rows IH]; simpl; [done|].
  destruct (p row); [by apply sublist_skip|by apply sublist_cons].
Qed.

Lemma filter_none {Row} (p : Row → bool) (rows : list Row) :
  (∀ row, row ∈ rows → p row = false) → List.filter p rows = [].
Proof.
  induction rows as [|row rows IH]; simpl; [done|]. intros Hnone.
  rewrite (Hnone row) by left. apply IH. intros row' Hin. apply Hnone. by right.
Qed.

(** An accepted request comes back with [request.auth] set to the accepted
    organization and its other parts as they were. *)
Lemma perform_authentication_ok request w request' w' :
  perform_authentication request w = (inr request', w') →
  ∃ uuid, TokenAuthentication.authenticate request w = (inr (tt, uuid), w')
          ∧ auth request' = Some uuid
          ∧ data request' = data request
          ∧ data request !! "organization" = None.
Proof.
  unfold perform_authentication, bind, ret. intros Hok.
  destruct (TokenAuthentication.authenticate request w) as [[e|[[] uuid]] w'']
    eqn:Hauth; [done|].
  injection Hok as <- <-. exists uuid. split_and!; try done.
  destruct (data request !! "organization") as [v|] eqn:Hbody; [|done].
  rewrite check_organization_reject in Hauth by done. done.
Qed.

Section token_views_more.
Import TokenAuthorizationMixin AuthorizeView AccountingView BatchView.

(** X7: the data handed to the base serializer holds [request.auth] as
    organization, whatever organization the caller put there, and every
    other field as the caller gave it; without [data] nothing is added. *)
Theorem get_serializer_overrides_organization (Args Serializer : Type)
    (super_get_serializer : Args → option (gmap string (option string)) → Serializer)
    request args (kwargs_data : gmap string string) :
  (∃ data_copy : gmap string (option string),
     get_serializer Args Serializer super_get_serializer request args (Some kwargs_data)
     = super_get_serializer args (Some data_copy)
     ∧ data_copy !! "organization" = Some (auth request)
     ∧ ∀ field, field ≠ "organization" →
         data_copy !! field = Some <$> kwargs_data !! field)
  ∧ get_serializer Args Serializer super_get_serializer request args None
    = super_get_serializer args None.
Proof.
  split; [|done]. eexists. split; [done|]. split.
  - apply lookup_insert_eq.
  - intros field Hfield. rewrite lookup_insert_ne by done. apply lookup_fmap.
Qed.

(** X8: for a request that passes authentication, the data of the request go to
    the base serializer complete and unchanged, with the accepted
    organization added: the body had no organization field to replace. *)
Theorem authenticated_body_reaches_serializer (Args Serializer : Type)
    (super_get_serializer : Args → option (gmap string (option string)) → Serializer)
    request w request' w' args :
  perform_authentication request w = (inr request', w') →
  ∃ uuid (data_copy : gmap string (option string)),
    fst (TokenAuthentication.authenticate request w) = inr (tt, uuid)
    ∧ get_serializer Args Serializer super_get_serializer request' args
        (Some (data request'))
      = super_get_serializer args (Some data_copy)
    ∧ data_copy !! "organization" = Some (Some uuid)
    ∧ delete "organization" data_copy = Some <$> data request.
Proof.
  intros Hok.
  apply perform_authentication_ok in Hok as (uuid & Hauth & Hreq & Hdata & Hbody).
  exists uuid. eexists. split_and!.
  - by rewrite Hauth.
  - done.
  - rewrite Hreq. apply lookup_insert_eq.
  - rewrite delete_insert_eq, Hdata. apply delete_id.
    by rewrite lookup_fmap, Hbody.
Qed.

(** X9: [get_user] returns a user exactly when the base lookup finds that user
    and the user has a membership row for the organization in
    [request.auth]; without an authenticated organization it returns
    nobody. *)
Theorem get_user_returns_only_members super_get_user db request user :
  get_user super_get_user db request = Some user
  ↔ super_get_user request = Some user
    ∧ ∃ org_id, auth request = Some org_id ∧ is_member db user org_id.
Proof.
  unfold get_user. split.
  - destruct (super_get_user request) as [u|]; [|done].
    destruct (exists_ _) eqn:Hex; [|done]. simpl. intros [= ->]. split; [done|].
    destruct (auth request) as [org_id|].
    + exists org_id. split; [done|]. by apply membership_exists.
    + unfold membership_filter in Hex. rewrite filter_none in Hex; [done|].
      intros row _. apply andb_false_iff. right. by apply bool_decide_eq_false.
  - intros (-> & org_id & -> & Hmember).
    apply membership_exists in Hmember. by rewrite Hmember.
Qed.

(** X10: from the request to the user: when authentication accepts a request and
    [get_user] then returns a user, that user is a member of the
    organization authentication accepted. *)
Theorem authorized_user_is_member super_get_user db request w request' w' user :
  perform_authentication request w = (inr request', w') →
  get_user super_get_user db request' = Some user →
  ∃ uuid, fst (TokenAuthentication.authenticate request w) = inr (tt, uuid)
          ∧ is_member db user uuid.
Proof.
  intros Hok Huser.
  apply perform_authentication_ok in Hok as (uuid & Hauth & Hreq & _).
  exists uuid. split; [by rewrite Hauth|].
  unfold get_user in Huser. rewrite Hreq in Huser.
  destruct (super_get_user request') as [u|]; [|done].
  destruct (exists_ _) eqn:Hex; [|done]. simpl in Huser. injection Huser as ->.
  by apply membership_exists.
Qed.

(** X11: the listing loses nothing: it holds every row of the base queryset that
    belongs to the authenticated organization, in the order of the base
    queryset. *)
Theorem accounting_complete_in_order super_get_queryset request org_a :
  auth request = Some org_a →
  sublist (get_queryset super_get_queryset request) super_get_queryset
  ∧ ∀ row, row ∈ super_get_queryset → acct_organization row = org_a →
      row ∈ get_queryset super_get_queryset request.
Proof.
  intros Hauth. split; [apply filter_sublist|].
  intros row Hin Horg. unfold get_queryset.
  apply list_elem_of_In, filter_In. split; [by apply list_elem_of_In|].
  apply bool_decide_eq_true. congruence.
Qed.

(** X12: the listings of two different organizations over the same base
    queryset have no row in common. *)
Theorem accounting_listings_disjoint super_get_queryset request_a request_b
    org_a org_b row :
  auth request_a = Some org_a →
  auth request_b = Some org_b →
  org_a ≠ org_b →
  row ∈ get_queryset super_get_queryset request_a →
  row ∉ get_queryset super_get_queryset request_b.
Proof.
  intros Ha Hb Hne Hin_a Hin_b.
  apply (get_queryset_spec _ _ org_a) in Hin_a; [|done].
  apply (get_queryset_spec _ _ org_b) in Hin_b; [|done].
  destruct Hin_a, Hin_b. congruence.
Qed.

(** X13: [_create_batch] calls the base routine with the caller's keyword
    arguments and, unless the caller passes an [organization] of its own
    (which then wins), with the organization whose primary key is
    [request.auth]. *)
Theorem create_batch_options (Serializer Batch : Type)
    (super_create_batch : Serializer → gmap string KwValue → Eff Database Batch)
    request serializer kwargs db org :
  objects_get (λ o, bool_decide (Some (org_pk o) = auth request))
    (organizations db) = inr org →
  ∃ options,
    _create_batch Serializer Batch super_create_batch request serializer kwargs db
    = super_create_batch serializer options db
    ∧ auth request = Some (org_pk org)
    ∧ (∀ k v, kwargs !! k = Some v → options !! k = Some v)
    ∧ (∀ k, k ≠ "organization" → options !! k = kwargs !! k)
    ∧ (kwargs !! "organization" = None →
       options !! "organization" = Some (KwOrganization org)).
Proof.
  intros Hget. eexists. split_and!.
  - unfold _create_batch, bind, organization_by_pk. by rewrite Hget.
  - apply objects_get_Some in Hget as [_ Hm]. by apply bool_decide_eq_true in Hm.
  - intros k v Hk. unfold dict_update. by apply lookup_union_Some_l.
  - intros k Hk. unfold dict_update.
    rewrite lookup_union, lookup_singleton_ne by done.
    by destruct (kwargs !! k).
  - intros Hk. unfold dict_update.
    by rewrite lookup_union_r, lookup_singleton_eq.
Qed.

(** X14: when no organization has [request.auth] as primary key, [_create_batch]
    raises [DoesNotExist] and the base routine is not run. *)
Theorem create_batch_unknown_organization (Serializer Batch : Type)
    (super_create_batch : Serializer → gmap string KwValue → Eff Database Batch)
    request serializer kwargs db :
  (∀ org, org ∈ organizations db → Some (org_pk org) ≠ auth request) →
  _create_batch Serializer Batch super_create_batch request serializer kwargs db
  = (inl DoesNotExist, db).
Proof.
  intros Hnone. unfold _create_batch, bind, organization_by_pk.
  rewrite objects_get_None; [done|].
  intros org Hin. apply bool_decide_eq_false. by apply Hnone.
Qed.

End token_views_more.

(** ** The slug-addressed views, continued *)

Section slug_views_more.
Import DispatchOrgMixin RegisterView ObtainAuthTokenView.

(** Membership can be decided. *)
Lemma is_member_dec db user org_id :
  is_member db user org_id ∨ ¬ is_member db user org_id.
Proof.
  unfold is_member.
  destruct (decide ({| ou_user := user_pk user; ou_organization_id := org_id |}
                      ∈ organization_users db)); auto.
Qed.

(** The token of a user already in the table is found again. *)
Lemma token_get_existing generate_key user db t :
  objects_get (λ t', bool_decide (token_user t' = user_pk user)) (auth_tokens db)
  = inr t →
  token_get_or_create generate_key user db = (inr (t, false), db).
Proof.
  intros Hget. unfold token_get_or_create, try_except. by rewrite Hget.
Qed.

(** The outcome of [post] for a member, by what the token table holds. *)
Lemma post_member auth_token_serializer generate_key org slug' request db user :
  auth_token_serializer (data request) = inr user →
  is_member db user (org_pk org) →
  post auth_token_serializer generate_key org slug' request db
  = match token_get_or_create generate_key user db with
    | (inr created, db') => (inr (fst created), db')
    | (inl e, db') => (inl e, db')
    end.
Proof.
  intros Hvalid Hmember. unfold post, bind at 1 2, validated_user.
  rewrite Hvalid.
  destruct (organizations_pk user db) as [res db'] eqn:Hpks.
  apply organizations_pk_member in Hmember as (pks & Hpks' & Hin).
  rewrite Hpks in Hpks'. simpl in Hpks'. subst res.
  unfold organizations_pk in Hpks. injection Hpks as _ <-.
  rewrite bool_decide_true by done. simpl. unfold bind, ret.
  by destruct (token_get_or_create generate_key user db) as [[e|[t c]] db''].
Qed.

(** X16: a registration adds the membership of the new user in the organization
    of the slug and nothing else: every other table is as the base creation
    left it, and so is every other membership. *)
Theorem registration_adds_one_membership (Serializer : Type)
    (super_perform_create : Serializer → Eff Database User)
    slug' serializer db org user db1 :
  objects_get (λ o, bool_decide (slug o = slug')) (organizations db) = inr org →
  super_perform_create serializer db = (inr user, db1) →
  let db2 := snd (register Serializer super_perform_create slug' serializer db) in
  organizations db2 = organizations db1
  ∧ auth_tokens db2 = auth_tokens db1
  ∧ warnings db2 = warnings db1
  ∧ ∀ u org_id,
      is_member db2 u org_id
      ↔ is_member db1 u org_id
        ∨ (user_pk u = user_pk user ∧ org_id = org_pk org).
Proof.
  intros Hget Hcreate. simpl. unfold register.
  rewrite (dispatch_resolved _ _ _ _ Hget).
  unfold perform_create, bind, add_user, ret. rewrite Hcreate. simpl.
  split_and!; try done. intros u org_id. unfold is_member. simpl.
  rewrite elem_of_app, list_elem_of_singleton. split.
  - intros [?|[= ? ?]]; auto.
  - intros [?|[-> ->]]; auto.
Qed.

(** X17: when the base creation raises, the registration raises the same
    exception and adds no membership. *)
Theorem failed_registration_adds_nothing (Serializer : Type)
    (super_perform_create : Serializer → Eff Database User)
    slug' serializer db org e db1 :
  objects_get (λ o, bool_decide (slug o = slug')) (organizations db) = inr org →
  super_perform_create serializer db = (inl e, db1) →
  register Serializer super_perform_create slug' serializer db = (inl e, db1).
Proof.
  intros Hget Hfail. unfold register.
  rewrite (dispatch_resolved _ _ _ _ Hget).
  unfold perform_create, bind. by rewrite Hfail.
Qed.

(** X18: a token is returned only to a user whose credentials the serializer
    accepted and who is a member of the organization the slug names; the
    token returned belongs to that user. *)
Theorem token_only_for_members auth_token_serializer generate_key
    slug' request db t :
  fst (obtain_auth_token auth_token_serializer generate_key slug' request db)
  = inr t →
  ∃ org user,
    org ∈ organizations db ∧ slug org = slug'
    ∧ auth_token_serializer (data request) = inr user
    ∧ is_member db user (org_pk org)
    ∧ token_user t = user_pk user.
Proof.
  unfold obtain_auth_token, dispatch, bind at 1, try_except, organization_get.
  destruct (objects_get _ (organizations db)) as [e|org] eqn:Hget;
    [by destruct e|].
  apply objects_get_Some in Hget as [Hin Hslug].
  apply bool_decide_eq_true in Hslug.
  destruct (auth_token_serializer (data request)) as [e|user] eqn:Hvalid.
  { by rewrite (post_invalid_credentials _ _ _ _ _ _ _ Hvalid). }
  destruct (is_member_dec db user (org_pk org)) as [Hmember|Hmember].
  2:{ by rewrite (post_not_member _ _ _ _ _ _ _ Hvalid Hmember). }
  rewrite (post_member _ _ _ _ _ _ _ Hvalid Hmember).
  intros Hok. exists org, user. split_and!; try done.
  unfold token_get_or_create, try_except in Hok.
  destruct (objects_get _ (auth_tokens db)) as [e|t'] eqn:Htok.
  - destruct e; simpl in Hok; try done. by injection Hok as <-.
  - simpl in Hok. injection Hok as <-.
    apply objects_get_Some in Htok as [_ Hm]. by apply bool_decide_eq_true in Hm.
Qed.

(** X19: a member who already has a token gets that token back, and the
    database is left as it was. *)
Theorem login_reuses_existing_token auth_token_serializer generate_key
    slug' request db org user t :
  objects_get (λ o, bool_decide (slug o = slug')) (organizations db) = inr org →
  auth_token_serializer (data request) = inr user →
  is_member db user (org_pk org) →
  objects_get (λ t', bool_decide (token_user t' = user_pk user)) (auth_tokens db)
  = inr t →
  obtain_auth_token auth_token_serializer generate_key slug' request db
  = (inr t, db).
Proof.
  intros Hget Hvalid Hmember Htok. unfold obtain_auth_token.
  rewrite (dispatch_resolved _ _ _ _ Hget).
  rewrite (post_member _ _ _ _ _ _ _ Hvalid Hmember).
  by rewrite (token_get_existing _ _ _ _ Htok).
Qed.

(** X20: logging in twice: the first login of a member without a token creates
    one, the second returns the same token and changes nothing. *)
Theorem login_twice_same_token auth_token_serializer generate_key
    slug' request db org user :
  objects_get (λ o, bool_decide (slug o = slug')) (organizations db) = inr org →
  auth_token_serializer (data request) = inr user →
  is_member db user (org_pk org) →
  (∀ t, t ∈ auth_tokens db → token_user t ≠ user_pk user) →
  let first := obtain_auth_token auth_token_serializer generate_key slug' request db in
  let second :=
    obtain_auth_token auth_token_serializer generate_key slug' request (snd first) in
  fst first = inr {| token_user := user_pk user; key := generate_key db |}
  ∧ second = first.
Proof.
  intros Hget Hvalid Hmember Hfresh first second. subst second first.
  rewrite (member_login_token _ _ _ _ _ _ _ Hget Hvalid Hmember Hfresh). simpl.
  split; [done|]. unfold obtain_auth_token.
  erewrite dispatch_resolved by exact Hget.
  rewrite (post_member _ _ _ _ _ _ _ Hvalid) by done.
  rewrite (token_get_existing _ _ _
             {| token_user := user_pk user; key := generate_key db |}); [done|].
  unfold objects_get. simpl. rewrite List.filter_app.
  rewrite filter_none.
  2:{ intros t Ht. apply bool_decide_eq_false. by apply Hfresh. }
  simpl. by rewrite bool_decide_true.
Qed.

(** X21: when the serializer refuses the credentials, its exception is raised as
    it is: no warning is logged and no token is created. *)
Theorem invalid_credentials_pass_through auth_token_serializer generate_key
    slug' request db org e :
  objects_get (λ o, bool_decide (slug o = slug')) (organizations db) = inr org →
  auth_token_serializer (data request) = inl e →
  obtain_auth_token auth_token_serializer generate_key slug' request db
  = (inl e, db).
Proof.
  intros Hget Hinvalid. unfold obtain_auth_token.
  rewrite (dispatch_resolved _ _ _ _ Hget).
  unfold post, bind, validated_user. by rewrite Hinvalid.
Qed.

(** X22: the login view keeps the token table free of second tokens: if no user
    has two tokens before, none has two after, whatever the outcome. *)
Theorem login_keeps_one_token_per_user auth_token_serializer generate_key
    slug' request db :
  NoDup (List.map token_user (auth_tokens db)) →
  NoDup (List.map token_user
           (auth_tokens
              (snd (obtain_auth_token auth_token_serializer generate_key
                      slug' request db)))).
Proof.
  intros Hnodup.
  unfold obtain_auth_token, dispatch, bind at 1, try_except, organization_get.
  destruct (objects_get _ (organizations db)) as [e|org] eqn:Hget;
    [by destruct e|].
  destruct (auth_token_serializer (data request)) as [e|user] eqn:Hvalid.
  { by rewrite (post_invalid_credentials _ _ _ _ _ _ _ Hvalid). }
  destruct (is_member_dec db user (org_pk org)) as [Hmember|Hmember].
  2:{ by rewrite (post_not_member _ _ _ _ _ _ _ Hvalid Hmember). }
  rewrite (post_member _ _ _ _ _ _ _ Hvalid Hmember).
  unfold token_get_or_create, try_except, objects_get.
  destruct (List.filter _ (auth_tokens db)) as [|t [|t' rest]] eqn:Hf; simpl;
    try done.
  rewrite map_app. simpl. apply NoDup_app. split_and!; [done| |apply NoDup_singleton].
  intros pk' Hin Hnew. apply list_elem_of_singleton in Hnew as ->.
  apply list_elem_of_In, in_map_iff in Hin as (t & Ht & Hin).
  assert (In t (List.filter (λ t', bool_decide (token_user t' = user_pk user))
                  (auth_tokens db))) as Hin'
    by (apply filter_In; split; [done|by apply bool_decide_eq_true]).
  by rewrite Hf in Hin'.
Qed.

End slug_views_more.

(** ** The URL table *)

Section urls.
Import Urls.

Context {View : Type}.
Implicit Types (module : gmap string View)
  (table : list (string * string * string)).

Lemma build_paths_ok module table patterns :
  build_paths module table = inr patterns →
  List.map (λ p, (route p, name p)) patterns
  = List.map (λ entry, (fst (fst entry), snd entry)) table
  ∧ Forall2 (λ p entry, module !! snd (fst entry) = Some (view p)) patterns table.
Proof.
  revert patterns. induction table as [|[[r a] n] table IH]; simpl; intros patterns.
  - by intros [= <-].
  - unfold getattr. destruct (module !! a) as [v|] eqn:Hv; [|done].
    destruct (build_paths module table) as [e|rest]; [done|].
    intros [= <-]. destruct (IH rest eq_refl) as [Hmap Hviews]. simpl.
    split; [by rewrite Hmap|]. by constructor.
Qed.

Lemma build_paths_error module table attr :
  build_paths module table = inl (NoAttribute attr) →
  ∃ before r n after,
    table = (before ++ (r, attr, n) :: after)%list
    ∧ module !! attr = None
    ∧ Forall (λ entry, is_Some (module !! snd (fst entry))) before.
Proof.
  induction table as [|[[r a] n] table IH]; simpl; [done|].
  unfold getattr. destruct (module !! a) as [v|] eqn:Hv.
  - destruct (build_paths module table) as [e|rest]; [|done].
    intros [= ->]. destruct (IH eq_refl) as (before & r' & n' & after & -> & ? & ?).
    exists ((r, a, n) :: before), r', n', after. split_and!; try done.
    constructor; [simpl; by rewrite Hv|done].
  - intros [= <-]. by exists [], r, n, table.
Qed.

Lemma build_paths_total module table :
  Forall (λ entry, is_Some (module !! snd (fst entry))) table →
  ∃ patterns, build_paths module table = inr patterns.
Proof.
  induction 1 as [|[[r a] n] table [v Hv] _ [rest IH]]; simpl; [by eexists|].
  simpl in Hv. unfold getattr. rewrite Hv, IH. by eexists.
Qed.

(** X23: [get_api_urls] returns routes exactly when the module it uses, the one
    given or else [views], defines every view the table names. *)
Theorem get_api_urls_succeeds_iff (views : gmap string View) api_views :
  (∃ patterns, get_api_urls View views api_views = inr patterns)
  ↔ ∀ attr, attr ∈ List.map (λ entry, snd (fst entry)) url_table →
      is_Some (default views api_views !! attr).
Proof.
  assert (get_api_urls View views api_views
          = build_paths (default views api_views) url_table) as ->
    by (by destruct api_views).
  split.
  - intros [patterns Hok] attr Hin.
    apply build_paths_ok in Hok as [_ Hviews].
    apply list_elem_of_In, in_map_iff in Hin as (entry & <- & Hin).
    apply list_elem_of_In, list_elem_of_lookup in Hin as [i Hi].
    destruct (Forall2_lookup_r _ _ _ _ _ Hviews Hi) as (p & _ & Hp). by eexists.
  - intros Hall. apply build_paths_total, Forall_forall. intros entry Hin.
    apply Hall, list_elem_of_In.
    apply (in_map (λ entry : string * string * string, snd (fst entry))).
    by apply list_elem_of_In.
Qed.

(** X24: when [get_api_urls] returns, it returns the fifteen routes of the table
    in order, each with the view the module holds for it; no two routes
    share a name or a pattern. *)
Theorem get_api_urls_routes (views : gmap string View) api_views patterns :
  get_api_urls View views api_views = inr patterns →
  length patterns = 15
  ∧ List.map (λ p, (route p, name p)) patterns
    = List.map (λ entry, (fst (fst entry), snd entry)) url_table
  ∧ Forall2 (λ p entry,
               default views api_views !! snd (fst entry) = Some (view p))
      patterns url_table
  ∧ NoDup (List.map name patterns)
  ∧ NoDup (List.map route patterns).
Proof.
  assert (get_api_urls View views api_views
          = build_paths (default views api_views) url_table) as ->
    by (by destruct api_views).
  intros Hok. apply build_paths_ok in Hok as [Hmap Hviews].
  split_and!; [|done|done| |].
  - by rewrite (Forall2_length _ _ _ Hviews).
  - replace (List.map name patterns)
      with (List.map snd (List.map (λ p, (route p, name p)) patterns))
      by (rewrite List.map_map; done).
    rewrite Hmap. apply (bool_decide_unpack _). by vm_compute.
  - replace (List.map route patterns)
      with (List.map fst (List.map (λ p, (route p, name p)) patterns))
      by (rewrite List.map_map; done).
    rewrite Hmap. apply (bool_decide_unpack _). by vm_compute.
Qed.

(** X25: when a view is missing, [get_api_urls] raises [AttributeError] for the
    first view of the table, in source order, that the module lacks. *)
Theorem get_api_urls_first_missing (views : gmap string View) api_views attr :
  get_api_urls View views api_views = inl (NoAttribute attr) →
  ∃ before r n after,
    url_table = (before ++ (r, attr, n) :: after)%list
    ∧ default views api_views !! attr = None
    ∧ Forall (λ entry, is_Some (default views api_views !! snd (fst entry)))
        before.
Proof.
  assert (get_api_urls View views api_views
          = build_paths (default views api_views) url_table) as ->
    by (by destruct api_views).
  apply build_paths_error.
Qed.

End urls.

(** ** The further properties on the sample data *)

Section on_sample_data_more.
Import TokenAuthentication TokenAuthorizationMixin AuthorizeView AccountingView.
Import BatchView DispatchOrgMixin RegisterView ObtainAuthTokenView.

(** Only the organization identifier is given. *)
Lemma missing_credentials_untouched_witness :
  let request :=
    {| data := ∅; GET := <["uuid" := "U1"]> ∅; META := ∅; auth := None |} in
  let w := Sample.world ∅ in
  authenticate request w
  = (inl (AuthenticationFailed "Token authentication failed"), w).
Proof.
  intros request w.
  apply (missing_credentials_untouched request w (Some "U1") None);
    [reflexivity|reflexivity|right; reflexivity].
Defined.

(** [Token abc] has one space. *)
Lemma parse_error_iff_fewer_than_two_spaces_witness :
  let request := Sample.header_request "Token abc" ∅ in
  let w := Sample.world ∅ in
  fst (get_uuid_token request w) = inl (ParseError "Invalid token").
Proof.
  intros request w.
  destruct (parse_error_iff_fewer_than_two_spaces request w "Token abc")
    as [[_ Hparse] _]; [reflexivity|].
  apply Hparse. vm_compute. lia.
Defined.

(** With an entry under the key [uuid] in the cache and an old token cached
    for [U1], the stored pair of [U1] is rejected and the settings table is
    not read. *)
Lemma warm_branch_decides_on_cache_alone_witness :
  let request := Sample.params_request "U1" "secret1" in
  let w := Sample.world (<["uuid" := "x"]> (<["U1" := "old"]> ∅)) in
  Sample.settings_U1 ∈ settings_table w
  ∧ fst (authenticate request w)
    = inl (AuthenticationFailed "Token authentication failed")
  ∧ trace (snd (authenticate request w)) = [CacheGet "uuid"; CacheGet "U1"].
Proof.
  intros request w. split; [left|].
  rewrite (warm_branch_decides_on_cache_alone request w "U1" "secret1");
    [split; reflexivity|reflexivity|reflexivity|discriminate|discriminate
    |reflexivity].
Defined.

(** A header put together from three parts gives the second and third
    back. *)
Lemma header_of_parts_witness :
  let request :=
    Sample.header_request (Py.join " " ["Bearer"; "U1"; "secret1"]) ∅ in
  let w := Sample.world ∅ in
  get_uuid_token request w = (inr (Some "U1", Some "secret1"), w).
Proof.
  intros request w.
  apply (header_of_parts request w "Bearer" "U1" "secret1" []); [|reflexivity].
  repeat constructor; intros c Hc ->; revert Hc;
    apply (bool_decide_unpack _); vm_compute; exact I.
Defined.

(** The body of an accepted request reaches the serializer with the
    organization added. *)
Lemma authenticated_body_reaches_serializer_witness :
  let request :=
    {| data := <["username" := "alice"]> ∅;
       GET := <["uuid" := "U1"]> (<["token" := "secret1"]> ∅);
       META := ∅; auth := None |} in
  let w := Sample.world ∅ in
  ∃ request' w',
    perform_authentication request w = (inr request', w')
    ∧ ∃ uuid (data_copy : gmap string (option string)),
        fst (authenticate request w) = inr (tt, uuid)
        ∧ get_serializer unit _ Scenario.echo_serializer request' tt
            (Some (data request'))
          = Scenario.echo_serializer tt (Some data_copy)
        ∧ data_copy !! "organization" = Some (Some uuid)
        ∧ delete "organization" data_copy = Some <$> data request.
Proof.
  intros request w. eexists. eexists. split; [vm_compute; reflexivity|].
  eapply (authenticated_body_reaches_serializer unit _ Scenario.echo_serializer
            request w).
  vm_compute. reflexivity.
Defined.

(** [alice] is looked up with the credentials of [U1], of which she is a
    member. *)
Lemma authorized_user_is_member_witness :
  let request :=
    {| data := <["username" := "alice"]> ∅;
       GET := <["uuid" := "U1"]> (<["token" := "secret1"]> ∅);
       META := ∅; auth := None |} in
  let w := Sample.world ∅ in
  ∃ request' w',
    perform_authentication request w = (inr request', w')
    ∧ get_user Sample.lookup_user Sample.database request' = Some Sample.alice
    ∧ ∃ uuid, fst (authenticate request w) = inr (tt, uuid)
              ∧ is_member Sample.database Sample.alice uuid.
Proof.
  intros request w. eexists. eexists.
  split; [vm_compute; reflexivity|]. split; [vm_compute; reflexivity|].
  eapply (authorized_user_is_member Sample.lookup_user Sample.database request w);
    vm_compute; reflexivity.
Defined.

Lemma accounting_complete_in_order_witness :
  let request := Sample.authenticated_request "U1" ∅ in
  sublist (get_queryset Sample.accounting_rows request) Sample.accounting_rows
  ∧ ∀ row, row ∈ Sample.accounting_rows → acct_organization row = "U1" →
      row ∈ get_queryset Sample.accounting_rows request.
Proof.
  intros request.
  apply (accounting_complete_in_order Sample.accounting_rows request "U1").
  reflexivity.
Defined.

(** The session [s1] of [U1] is not in the listing of [U2]. *)
Lemma accounting_listings_disjoint_witness :
  let row :=
    {| unique_id := "s1"; acct_username := "alice"; acct_organization := "U1" |} in
  row ∈ get_queryset Sample.accounting_rows (Sample.authenticated_request "U1" ∅)
  ∧ row ∉ get_queryset Sample.accounting_rows (Sample.authenticated_request "U2" ∅).
Proof.
  intros row. split; [left|].
  apply (accounting_listings_disjoint Sample.accounting_rows
           (Sample.authenticated_request "U1" ∅)
           (Sample.authenticated_request "U2" ∅) "U1" "U2");
    [reflexivity|reflexivity|discriminate|left].
Defined.

(** A batch for [U1]: the name given by the caller and the organization
    [org_A] reach the base routine. *)
Lemma create_batch_options_witness :
  let request := Sample.authenticated_request "U1" ∅ in
  let kwargs : gmap string KwValue := <["name" := KwStr "batch1"]> ∅ in
  ∃ options,
    _create_batch unit _ Scenario.echo_batch request tt kwargs Sample.database
    = Scenario.echo_batch tt options Sample.database
    ∧ auth request = Some (org_pk Sample.org_A)
    ∧ (∀ k v, kwargs !! k = Some v → options !! k = Some v)
    ∧ (∀ k, k ≠ "organization" → options !! k = kwargs !! k)
    ∧ (kwargs !! "organization" = None →
       options !! "organization" = Some (KwOrganization Sample.org_A)).
Proof.
  intros request kwargs.
  apply (create_batch_options unit _ Scenario.echo_batch request tt kwargs
           Sample.database Sample.org_A).
  reflexivity.
Defined.

(** No organization has the primary key [U9]. *)
Lemma create_batch_unknown_organization_witness :
  _create_batch unit _ Scenario.echo_batch (Sample.authenticated_request "U9" ∅)
    tt ∅ Sample.database
  = (inl DoesNotExist, Sample.database).
Proof.
  apply (create_batch_unknown_organization unit _ Scenario.echo_batch).
  intros org Hin Heq.
  apply elem_of_cons in Hin as [->|Hin]; [discriminate Heq|].
  apply elem_of_cons in Hin as [->|Hin]; [discriminate Heq|].
  by apply elem_of_nil in Hin.
Defined.

(** No organization has the slug [nowhere]: the registration is not
    attempted. *)
Lemma dispatch_unknown_slug_witness :
  dispatch "nowhere" (λ org, perform_create unit Sample.create_bob org tt)
    Sample.database
  = (inl Http404, Sample.database).
Proof.
  apply (dispatch_unknown_slug "nowhere"). intros org Hin Heq.
  apply elem_of_cons in Hin as [->|Hin]; [discriminate Heq|].
  apply elem_of_cons in Hin as [->|Hin]; [discriminate Heq|].
  by apply elem_of_nil in Hin.
Defined.

Lemma registration_adds_one_membership_witness :
  let db2 := snd (register unit Sample.create_bob "org-a" tt Sample.database) in
  organizations db2 = organizations Sample.database
  ∧ auth_tokens db2 = auth_tokens Sample.database
  ∧ warnings db2 = warnings Sample.database
  ∧ ∀ u org_id,
      is_member db2 u org_id
      ↔ is_member Sample.database u org_id
        ∨ (user_pk u = user_pk Sample.bob ∧ org_id = org_pk Sample.org_A).
Proof.
  apply (registration_adds_one_membership unit Sample.create_bob "org-a" tt
           Sample.database Sample.org_A Sample.bob Sample.database);
    reflexivity.
Defined.

Lemma failed_registration_adds_nothing_witness :
  register unit Scenario.refuse_registration "org-a" tt Sample.database
  = (inl (ValidationError [("username", ["This field is required."])]),
     Sample.database).
Proof.
  apply (failed_registration_adds_nothing unit Scenario.refuse_registration
           "org-a" tt Sample.database Sample.org_A);
    reflexivity.
Defined.

(** [alice] logs in under the slug of [org_A]. *)
Lemma token_only_for_members_witness :
  ∃ org user,
    org ∈ organizations Sample.database ∧ slug org = "org-a"
    ∧ Sample.check_credentials (data Scenario.alice_login) = inr user
    ∧ is_member Sample.database user (org_pk org)
    ∧ token_user {| token_user := 1; key := "k0" |} = user_pk user.
Proof.
  apply (token_only_for_members Sample.check_credentials Scenario.numbered_key
           "org-a" Scenario.alice_login Sample.database).
  reflexivity.
Defined.

Lemma login_reuses_existing_token_witness :
  obtain_auth_token Sample.check_credentials Scenario.numbered_key "org-a"
    Scenario.alice_login Scenario.database_with_token
  = (inr {| token_user := 1; key := "k0" |}, Scenario.database_with_token).
Proof.
  apply (login_reuses_existing_token Sample.check_credentials
           Scenario.numbered_key "org-a" Scenario.alice_login
           Scenario.database_with_token Sample.org_A Sample.alice);
    [reflexivity|reflexivity|left|reflexivity].
Defined.

Lemma login_twice_same_token_witness :
  let first := obtain_auth_token Sample.check_credentials Scenario.numbered_key
                 "org-a" Scenario.alice_login Sample.database in
  let second := obtain_auth_token Sample.check_credentials Scenario.numbered_key
                  "org-a" Scenario.alice_login (snd first) in
  fst first = inr {| token_user := 1; key := "k0" |} ∧ second = first.
Proof.
  apply (login_twice_same_token Sample.check_credentials Scenario.numbered_key
           "org-a" Scenario.alice_login Sample.database Sample.org_A Sample.alice);
    [reflexivity|reflexivity|left|].
  intros t Hin. by apply elem_of_nil in Hin.
Defined.

Lemma invalid_credentials_pass_through_witness :
  obtain_auth_token Sample.check_credentials Scenario.numbered_key "org-a"
    Scenario.wrong_password Sample.database
  = (inl invalid_credentials, Sample.database).
Proof.
  apply (invalid_credentials_pass_through Sample.check_credentials
           Scenario.numbered_key "org-a" Scenario.wrong_password
           Sample.database Sample.org_A);
    reflexivity.
Defined.

Lemma login_keeps_one_token_per_user_witness :
  NoDup (List.map token_user
           (auth_tokens
              (snd (obtain_auth_token Sample.check_credentials
                      Scenario.numbered_key "org-a" Scenario.alice_login
                      Scenario.database_with_token)))).
Proof.
  apply (login_keeps_one_token_per_user Sample.check_credentials
           Scenario.numbered_key "org-a" Scenario.alice_login
           Scenario.database_with_token).
  apply NoDup_singleton.
Defined.

(** A module with all the views gives the fifteen routes. *)
Lemma get_api_urls_routes_witness :
  ∃ patterns,
    Urls.get_api_urls string ∅ (Some Scenario.all_views) = inr patterns
    ∧ length patterns = 15
    ∧ NoDup (List.map Urls.name patterns)
    ∧ NoDup (List.map Urls.route patterns).
Proof.
  eexists. split; [vm_compute; reflexivity|].
  edestruct (get_api_urls_routes (View := string) ∅ (Some Scenario.all_views))
    as (Hlen & _ & _ & Hnames & Hroutes); [vm_compute; reflexivity|].
  split_and!; [exact Hlen|exact Hnames|exact Hroutes].
Defined.

(** With the six views of the sample module only, the first view missing
    is the one of the fifth route. *)
Lemma get_api_urls_first_missing_witness :
  Urls.get_api_urls string Scenario.defined_views None
  = inl (Urls.NoAttribute "password_reset_confirm")
  ∧ ∃ before r n after,
      Urls.url_table = (before ++ (r, "password_reset_confirm", n) :: after)%list
      ∧ default Scenario.defined_views None !! "password_reset_confirm" = None
      ∧ Forall (λ entry, is_Some (default Scenario.defined_views None
                                    !! snd (fst entry))) before.
Proof.
  split; [vm_compute; reflexivity|].
  apply (get_api_urls_first_missing (View := string) Scenario.defined_views None).
  vm_compute. reflexivity.
Defined.

End on_sample_data_more.
